(** * libtorrent: the page-aligned allocator (src/allocator.cpp)

    A shallow embedding of [page_size], [page_aligned_allocator::malloc],
    [page_aligned_allocator::free] and [page_aligned_allocator::in_use],
    for every build the preprocessor can select, together with the
    properties of the allocator's specification.

    Reading guide.
    - A pointer is its address, a [Z]; [nullptr] is [0].
    - [int] is the 32-bit signed integer.  A conversion to [int] wraps
      ([cast_int]); an [int] or [std::int64_t] operation whose result leaves
      the type is undefined behaviour ([int_op], [int64_op]).
    - The function-local static of [page_size], the [alloc_header] records
      the diagnostic build writes in front of every block, and the calls made
      to the platform are the components of a [world]; every function is a
      computation in the monad [M] over worlds.
    - What the platform answers to one call of the allocator's interface is
      an input of that call, a [replies] record.
    - A world also holds the pointers the allocation primitive has handed
      out and the release primitive has not taken back.  Reading or writing
      a header through any other pointer is undefined behaviour, and so is
      handing such a pointer to [::free] or [_aligned_free].  The heap keeps
      the last header stored at an address after its release, as a record of
      what was written there; it can no longer be read. *)

From Stdlib Require Import ZArith List String Bool Lia.
From stdpp Require Import base option gmap.
Import ListNotations.

Local Open Scope Z_scope.

(** ** Integer types *)

Definition INT_MIN : Z := - 2 ^ 31.
Definition INT_MAX : Z := 2 ^ 31 - 1.
Definition INT64_MIN : Z := - 2 ^ 63.
Definition INT64_MAX : Z := 2 ^ 63 - 1.

(** [int(x)]: conversion to the 32-bit signed integer, modulo 2^32. *)
Definition cast_int (z : Z) : Z := (z + 2 ^ 31) mod 2 ^ 32 - 2 ^ 31.

(** The two widths [std::size_t] has on the platforms of the library. *)
Inductive size_t_width := SIZE_T_32 | SIZE_T_64.

Definition size_t_bits (sw : size_t_width) : Z :=
  match sw with SIZE_T_32 => 32 | SIZE_T_64 => 64 end.

(** [std::size_t(x)]: conversion to the unsigned type, modulo 2^width. *)
Definition cast_size_t (sw : size_t_width) (z : Z) : Z := z mod 2 ^ size_t_bits sw.

Definition in_int (z : Z) : bool := (INT_MIN <=? z) && (z <=? INT_MAX).
Definition in_int64 (z : Z) : bool := (INT64_MIN <=? z) && (z <=? INT64_MAX).

(** ** Build configuration

    The macros that select the code of the translation unit.  They are set in
    libtorrent/config.hpp and by the build system; here they are the fields
    of a record, and every combination is a build. *)

Record build := {
  TORRENT_BUILD_SIMULATOR : bool;
  TORRENT_WINDOWS : bool;
  TORRENT_BEOS : bool;
  TORRENT_USE_POSIX_MEMALIGN : bool;
  TORRENT_USE_MEMALIGN : bool;
  TORRENT_DEBUG_BUFFERS : bool;
  size_t_model : size_t_width
}.

(** [B_PAGE_SIZE] of BeOS and Haiku (kernel/OS.h). *)
Definition B_PAGE_SIZE : Z := 4096.
(** [B_OK] of BeOS and Haiku (support/Errors.h). *)
Definition B_OK : Z := 0.

(** ** The diagnostic header *)

(** [struct alloc_header]: [std::int64_t size; int magic; char stack[3072]]. *)
Record alloc_header := {
  size : Z;
  magic : Z;
  stack : string
}.

(** [sizeof(h->stack)] *)
Definition sizeof_stack : Z := 3072.

(** ** Calls to the platform *)

Inductive protection := PROT_READ | PROT_READ_WRITE.

Inductive os_call :=
| sysconf_SC_PAGESIZE
| GetSystemInfo
| posix_memalign (alignment bytes : Z)
| memalign (alignment bytes : Z)
| aligned_malloc (bytes alignment : Z)
| create_area (bytes : Z)
| valloc (bytes : Z)
| mprotect (buf len : Z) (prot : protection)
| print_backtrace (header : Z) (len : Z)
| aligned_free (block : Z)
| area_for (block : Z)
| delete_area (id : Z)
| libc_free (block : Z).

(** What the platform answers during one call of the allocator's interface.
    - [reported_page_size]: [si.dwPageSize] after [GetSystemInfo], or the
      result of [sysconf(_SC_PAGESIZE)] (-1 when the query fails);
    - [alloc_status]: the value [posix_memalign] returns, or the [area_id]
      [create_area] returns;
    - [alloc_ptr]: the pointer the allocation primitive produces;
    - [backtrace]: the text [print_backtrace] writes;
    - [area]: the [area_id] [area_for] returns. *)
Record replies := {
  reported_page_size : Z;
  alloc_status : Z;
  alloc_ptr : Z;
  backtrace : string;
  area : Z
}.

(** ** Worlds and the monad of the embedding *)

Record world := {
  s : Z;                          (* [static int s] of [page_size] *)
  heap : gmap Z alloc_header;     (* the [alloc_header] last stored, by address *)
  trace : list os_call;           (* calls to the platform, oldest first *)
  allocated : gset Z              (* pointers allocated and not yet released *)
}.

(** A process starts with [s = 0], no header, no call made and nothing
    allocated. *)
Definition initial_world : world :=
  {| s := 0; heap := ∅; trace := []; allocated := ∅ |}.

Inductive outcome (A : Type) :=
| Returned (a : A) (w : world)
| AssertionFailed (expr : string)
| Undefined.
Arguments Returned {A} a w.
Arguments AssertionFailed {A} expr.
Arguments Undefined {A}.

Definition M (A : Type) : Type := world -> outcome A.

Definition pure {A} (a : A) : M A := fun w => Returned a w.

Definition bind {A B} (m : M A) (k : A -> M B) : M B :=
  fun w => match m w with
           | Returned a w' => k a w'
           | AssertionFailed e => AssertionFailed e
           | Undefined => Undefined
           end.

Declare Scope alloc_scope.
Delimit Scope alloc_scope with alloc.
Notation "x <- m ;; k" := (bind m (fun x => k))
  (at level 100, m at next level, right associativity) : alloc_scope.
Notation "m ;; k" := (bind m (fun _ => k))
  (at level 100, right associativity) : alloc_scope.
Local Open Scope alloc_scope.

(** Modelled from the spec: the macro [TORRENT_ASSERT] of libtorrent/assert.hpp,
    which is not part of this translation unit.  The specification makes a
    violated assertion a fatal, immediately reported condition: the asserted
    expression is evaluated, and when it is false the call does not return. *)
Definition TORRENT_ASSERT (cond : bool) (expr : string) : M unit :=
  fun w => if cond then Returned tt w else AssertionFailed expr.

Definition undefined {A} : M A := fun _ => Undefined.

(** The result of an [int] operation: undefined behaviour out of range. *)
Definition int_op (z : Z) : M Z := if in_int z then pure z else undefined.
(** The result of an [std::int64_t] operation. *)
Definition int64_op (z : Z) : M Z := if in_int64 z then pure z else undefined.

Definition get_s : M Z := fun w => Returned (s w) w.
Definition set_s (v : Z) : M unit :=
  fun w => Returned tt {| s := v; heap := heap w; trace := trace w;
                          allocated := allocated w |}.

(** A call to the platform is appended to the trace. *)
Definition call (c : os_call) : M unit :=
  fun w => Returned tt {| s := s w; heap := heap w; trace := trace w ++ [c];
                          allocated := allocated w |}.

(** Reading through an [alloc_header*]: undefined where the memory is not
    allocated, or where no header was ever written. *)
Definition load_header (p : Z) : M alloc_header :=
  fun w => if decide (p ∈ allocated w)
           then match heap w !! p with
                | Some h => Returned h w
                | None => Undefined
                end
           else Undefined.

(** Writing through an [alloc_header*]: undefined where the memory is not
    allocated. *)
Definition store_header (p : Z) (h : alloc_header) : M unit :=
  fun w => if decide (p ∈ allocated w)
           then Returned tt {| s := s w; heap := <[p := h]> (heap w);
                               trace := trace w; allocated := allocated w |}
           else Undefined.

(** The allocation primitive has produced [p]: unless it is null, it is an
    allocation from now on. *)
Definition acquire (p : Z) : M unit :=
  fun w => Returned tt (if p =? 0 then w
                        else {| s := s w; heap := heap w; trace := trace w;
                                allocated := {[p]} ∪ allocated w |}).

(** [::free] and [_aligned_free] take back an allocation; given any other
    pointer their behaviour is undefined. *)
Definition relinquish (p : Z) : M unit :=
  fun w => if decide (p ∈ allocated w)
           then Returned tt {| s := s w; heap := heap w; trace := trace w;
                               allocated := allocated w ∖ {[p]} |}
           else Undefined.

(** [delete_area] deletes the area [area_for] found for [p]. *)
Definition surrender (p : Z) : M unit :=
  fun w => Returned tt {| s := s w; heap := heap w; trace := trace w;
                          allocated := allocated w ∖ {[p]} |}.

(** ** page_size *)

(** The value assigned to [s] by the branch of the build (lines 83-93). *)
Definition query_page_size (cfg : build) (r : replies) : M Z :=
  if TORRENT_BUILD_SIMULATOR cfg then pure 4096
  else if TORRENT_WINDOWS cfg then
    call GetSystemInfo ;; pure (cast_int (reported_page_size r))
  else if TORRENT_BEOS cfg then pure B_PAGE_SIZE
  else call sysconf_SC_PAGESIZE ;; pure (cast_int (reported_page_size r)).

Definition page_size (cfg : build) (r : replies) : M Z :=
  s0 <- get_s ;;
  if negb (s0 =? 0) then pure s0
  else
    q <- query_page_size cfg r ;;
    let s1 := if q <=? 0 then 4096 else q in
    set_s s1 ;;
    pure s1.

(** ** page_aligned_allocator::malloc *)

(** [size_type] is declared in libtorrent/allocator.hpp, which is not part of
    this translation unit.  Past the three assertions of [malloc] the
    argument lies strictly between 0 and 0x30000000 and is not below the page
    size, so the expression of line 110 takes the same value in [int] and in
    [std::size_t] (lemma [num_pages_in_int]); it is written over [Z], and its
    conversion to [const int num_pages] is explicit. *)
Definition request_num_pages (page bytes : Z) : M Z :=
  pm1 <- int_op (page - 1) ;;
  pure (cast_int ((bytes + pm1) ÷ page + 2)).

(** Lines 108-113: the page, the number of pages, the size asked for and the
    size to reserve. *)
Definition debug_resize (cfg : build) (r : replies) (bytes : Z) : M (Z * Z * Z * Z) :=
  page <- page_size cfg r ;;
  num_pages <- request_num_pages page bytes ;;
  let orig_bytes := cast_int bytes in
  bytes' <- int_op (num_pages * page) ;;
  pure (page, num_pages, orig_bytes, bytes').

(** Lines 115-130: the allocation primitive of the build.  [Some ret] is the
    pointer the code goes on with; [None] is the [return nullptr] of the
    create_area branch.  A primitive that succeeds has allocated the pointer
    it produced. *)
Definition platform_alloc (cfg : build) (r : replies) (bytes : Z) : M (option Z) :=
  let sw := size_t_model cfg in
  if TORRENT_USE_POSIX_MEMALIGN cfg then
    p <- page_size cfg r ;;
    call (posix_memalign (cast_size_t sw p) (cast_size_t sw bytes)) ;;
    let ret := if negb (alloc_status r =? 0) then 0 else alloc_ptr r in
    acquire ret ;;
    pure (Some ret)
  else if TORRENT_USE_MEMALIGN cfg then
    p <- page_size cfg r ;;
    call (memalign (cast_size_t sw p) (cast_size_t sw bytes)) ;;
    acquire (alloc_ptr r) ;;
    pure (Some (alloc_ptr r))
  else if TORRENT_WINDOWS cfg then
    p <- page_size cfg r ;;
    call (aligned_malloc (cast_size_t sw bytes) (cast_size_t sw p)) ;;
    acquire (alloc_ptr r) ;;
    pure (Some (alloc_ptr r))
  else if TORRENT_BEOS cfg then
    p1 <- page_size cfg r ;;
    p2 <- page_size cfg r ;;
    call (create_area (cast_size_t sw (Z.land (bytes + p1 - 1) (p2 - 1)))) ;;
    if alloc_status r <? B_OK then pure None
    else acquire (alloc_ptr r) ;; pure (Some (alloc_ptr r))
  else
    call (valloc (cast_size_t sw bytes)) ;;
    acquire (alloc_ptr r) ;;
    pure (Some (alloc_ptr r)).

(** [print_backtrace(h->stack, sizeof(h->stack))] *)
Definition capture_backtrace (p : Z) (r : replies) : M unit :=
  h <- load_header p ;;
  call (print_backtrace p sizeof_stack) ;;
  store_header p {| size := size h; magic := magic h; stack := backtrace r |}.

(** Lines 132-152: the header, the two protected pages and the pointer
    returned.  [mprotect] stands for [VirtualProtect] under TORRENT_WINDOWS,
    as the macro of line 140 has it. *)
Definition debug_install (cfg : build) (r : replies) (p page num_pages orig_bytes : Z) : M Z :=
  let sw := size_t_model cfg in
  store_header p {| size := orig_bytes; magic := 0x1337; stack := EmptyString |} ;;
  capture_backtrace p r ;;
  call (mprotect p (cast_size_t sw page) PROT_READ) ;;
  n1 <- int_op (num_pages - 1) ;;
  off <- int_op (n1 * page) ;;
  call (mprotect (p + off) (cast_size_t sw page) PROT_READ) ;;
  pure (p + page).

Definition malloc (cfg : build) (r : replies) (bytes : Z) : M Z :=
  TORRENT_ASSERT (0 <? bytes) "bytes > 0" ;;
  TORRENT_ASSERT (bytes <? 0x30000000) "bytes < 0x30000000" ;;
  p <- page_size cfg r ;;
  TORRENT_ASSERT (p <=? cast_int bytes) "int(bytes) >= page_size()" ;;
  if TORRENT_DEBUG_BUFFERS cfg then
    d <- debug_resize cfg r bytes ;;
    let '(page, num_pages, orig_bytes, bytes') := d in
    o <- platform_alloc cfg r bytes' ;;
    match o with
    | None => pure 0
    | Some p => if p =? 0 then pure 0
                else debug_install cfg r p page num_pages orig_bytes
    end
  else
    o <- platform_alloc cfg r bytes ;;
    match o with
    | None => pure 0
    | Some p => if p =? 0 then pure 0 else pure p
    end.

(** ** page_aligned_allocator::free *)

(** Line 173: [int((h->size + (page - 1)) / page + 2)], in [std::int64_t]. *)
Definition header_num_pages (page hsize : Z) : M Z :=
  pm1 <- int_op (page - 1) ;;
  sum <- int64_op (hsize + pm1) ;;
  q <- int64_op (sum ÷ page) ;;
  n <- int64_op (q + 2) ;;
  pure (cast_int n).

(** Lines 162-188: the diagnostic part of [free]; it yields the pointer
    handed to the release primitive. *)
Definition debug_release (cfg : build) (r : replies) (block : Z) : M Z :=
  let sw := size_t_model cfg in
  page <- page_size cfg r ;;
  call (mprotect (block - page) (cast_size_t sw page) PROT_READ_WRITE) ;;
  h <- load_header (block - page) ;;
  num_pages <- header_num_pages page (size h) ;;
  TORRENT_ASSERT (magic h =? 0x1337) "h->magic == 0x1337" ;;
  n2 <- int_op (num_pages - 2) ;;
  off <- int_op (n2 * page) ;;
  call (mprotect (block + off) (cast_size_t sw page) PROT_READ_WRITE) ;;
  store_header (block - page) {| size := size h; magic := 0; stack := stack h |} ;;
  capture_backtrace (block - page) r ;;
  pure (block - page).

(** Lines 190-198: the release primitive of the build.  On the create_area
    branch nothing is released when [area_for] finds no area. *)
Definition platform_free (cfg : build) (r : replies) (block : Z) : M unit :=
  if TORRENT_WINDOWS cfg then call (aligned_free block) ;; relinquish block
  else if TORRENT_BEOS cfg then
    call (area_for block) ;;
    if area r <? B_OK then pure tt
    else call (delete_area (area r)) ;; surrender block
  else call (libc_free block) ;; relinquish block.

Definition free (cfg : build) (r : replies) (block : Z) : M unit :=
  if block =? 0 then pure tt
  else
    block' <- (if TORRENT_DEBUG_BUFFERS cfg then debug_release cfg r block
               else pure block) ;;
    platform_free cfg r block'.

(** ** page_aligned_allocator::in_use (diagnostic builds) *)

Definition in_use (cfg : build) (r : replies) (block : Z) : M bool :=
  page <- page_size cfg r ;;
  h <- load_header (block - page) ;;
  pure (magic h =? 0x1337).

(** ** Sequences of calls

    A process uses the allocator through a sequence of calls of its
    interface, each with the platform's replies to it. *)

Inductive api_call :=
| call_page_size
| call_malloc (bytes : Z)
| call_free (block : Z)
| call_in_use (block : Z).

Definition exec (cfg : build) (c : api_call) (r : replies) : M unit :=
  match c with
  | call_page_size => page_size cfg r ;; pure tt
  | call_malloc bytes => malloc cfg r bytes ;; pure tt
  | call_free block => free cfg r block
  | call_in_use block => in_use cfg r block ;; pure tt
  end.

Fixpoint run (cfg : build) (cs : list (api_call * replies)) : M unit :=
  match cs with
  | [] => pure tt
  | (c, r) :: cs' => exec cfg c r ;; run cfg cs'
  end.

(** ** Vocabulary of the specification *)

(** The static holds 0 before the first call of [page_size] and a page size
    afterwards: it is never negative in a world a process can be in (lemma
    [run_static_valid]). *)
Definition static_valid (w : world) : Prop := 0 <= s w.

(** The value the build obtains for the page size (lines 83-93), as an [int]. *)
Definition queried (cfg : build) (r : replies) : Z :=
  if TORRENT_BUILD_SIMULATOR cfg then 4096
  else if TORRENT_WINDOWS cfg then cast_int (reported_page_size r)
  else if TORRENT_BEOS cfg then B_PAGE_SIZE
  else cast_int (reported_page_size r).

(** The calls the build makes to obtain it. *)
Definition query_calls (cfg : build) : list os_call :=
  if TORRENT_BUILD_SIMULATOR cfg then []
  else if TORRENT_WINDOWS cfg then [GetSystemInfo]
  else if TORRENT_BEOS cfg then []
  else [sysconf_SC_PAGESIZE].

(** What [page_size()] evaluates to in a world, and the world it leaves. *)
Definition page_value (cfg : build) (r : replies) (w : world) : Z :=
  if s w =? 0 then (if queried cfg r <=? 0 then 4096 else queried cfg r) else s w.

Definition page_world (cfg : build) (r : replies) (w : world) : world :=
  if s w =? 0
  then {| s := page_value cfg r w; heap := heap w;
          trace := trace w ++ query_calls cfg; allocated := allocated w |}
  else w.

Definition power_of_two (v : Z) : Prop := exists k : nat, v = 2 ^ Z.of_nat k.

(** The build asks the platform for its page size (lines 86-88 and 92);
    the simulator build and the BeOS build use a constant. *)
Definition asks_platform (cfg : build) : bool :=
  negb (TORRENT_BUILD_SIMULATOR cfg)
  && (TORRENT_WINDOWS cfg || negb (TORRENT_BEOS cfg)).

(** What a platform answers when asked for its page size: a power of two
    that fits an [int], or a non-positive [int] when the query fails
    ([sysconf] returns -1). *)
Definition plausible_report (q : Z) : Prop :=
  INT_MIN <= q <= 0 \/ (power_of_two q /\ q <= INT_MAX).

Definition is_power_of_two (v : Z) : bool := (0 <? v) && (2 ^ Z.log2 v =? v).

(** [ceil(bytes / page)], as the least number of pages that hold [bytes]. *)
Definition is_ceil_div (bytes page n : Z) : Prop :=
  (n - 1) * page < bytes <= n * page.

(** The request the allocation primitive of the build receives for [bytes]
    bytes when the page size is [page]. *)
Definition alloc_request (cfg : build) (page bytes : Z) : os_call :=
  if TORRENT_USE_POSIX_MEMALIGN cfg then posix_memalign page bytes
  else if TORRENT_USE_MEMALIGN cfg then memalign page bytes
  else if TORRENT_WINDOWS cfg then aligned_malloc bytes page
  else if TORRENT_BEOS cfg then create_area (Z.land (bytes + page - 1) (page - 1))
  else valloc bytes.

(** The build allocates with [create_area]. *)
Definition uses_create_area (cfg : build) : bool :=
  negb (TORRENT_USE_POSIX_MEMALIGN cfg) && negb (TORRENT_USE_MEMALIGN cfg)
  && negb (TORRENT_WINDOWS cfg) && TORRENT_BEOS cfg.

(** The pointer the code of [malloc] goes on with after the primitive:
    [None] for the early return of the create_area branch. *)
Definition alloc_result (cfg : build) (r : replies) : option Z :=
  if TORRENT_USE_POSIX_MEMALIGN cfg
  then Some (if negb (alloc_status r =? 0) then 0 else alloc_ptr r)
  else if TORRENT_USE_MEMALIGN cfg then Some (alloc_ptr r)
  else if TORRENT_WINDOWS cfg then Some (alloc_ptr r)
  else if TORRENT_BEOS cfg
  then (if alloc_status r <? B_OK then None else Some (alloc_ptr r))
  else Some (alloc_ptr r).

(** The calls of the release primitive of the build. *)
Definition release_calls (cfg : build) (r : replies) (block : Z) : list os_call :=
  if TORRENT_WINDOWS cfg then [aligned_free block]
  else if TORRENT_BEOS cfg
  then (if area r <? B_OK then [area_for block] else [area_for block; delete_area (area r)])
  else [libc_free block].

(** ** Worlds written out *)

(** The world after some more calls to the platform, and after a header
    was written. *)
Definition emit (cs : list os_call) (w : world) : world :=
  {| s := s w; heap := heap w; trace := trace w ++ cs; allocated := allocated w |}.

Definition put (p : Z) (h : alloc_header) (w : world) : world :=
  {| s := s w; heap := <[p := h]> (heap w); trace := trace w;
     allocated := allocated w |}.

(** The world after the allocation primitive has answered: the pointer it
    produced, unless null, is allocated. *)
Definition acquired (o : option Z) (w : world) : world :=
  match o with
  | Some p => if p =? 0 then w
              else {| s := s w; heap := heap w; trace := trace w;
                      allocated := {[p]} ∪ allocated w |}
  | None => w
  end.

(** The world after the release primitive has taken [p] back. *)
Definition relinquished (p : Z) (w : world) : world :=
  {| s := s w; heap := heap w; trace := trace w;
     allocated := allocated w ∖ {[p]} |}.

(** The release primitive of the build takes the memory back: always but on
    the create_area branch when [area_for] finds no area. *)
Definition release_takes_place (cfg : build) (r : replies) : bool :=
  TORRENT_WINDOWS cfg || negb (TORRENT_BEOS cfg) || negb (area r <? B_OK).

(** The release primitive of the build is [::free] or [_aligned_free]. *)
Definition release_needs_allocation (cfg : build) : bool :=
  TORRENT_WINDOWS cfg || negb (TORRENT_BEOS cfg).

(** A process that knows its page size and has done nothing else. *)
Definition paged (page : Z) : world :=
  {| s := page; heap := ∅; trace := []; allocated := ∅ |}.

(** The world a diagnostic [malloc] leaves around the raw allocation [raw]:
    the header written, the trace captured, the first and the last page
    made read-only. *)
Definition guarded (r : replies) (page n bytes raw : Z) (w : world) : world :=
  emit [print_backtrace raw sizeof_stack; mprotect raw page PROT_READ;
        mprotect (raw + (n - 1) * page) page PROT_READ]
    (put raw {| size := bytes; magic := 0x1337; stack := backtrace r |} w).

(** The world a diagnostic [free] leaves: both pages writable again, the tag
    cleared, the trace captured anew, the raw allocation released. *)
Definition released (cfg : build) (r : replies) (page n : Z) (h : alloc_header)
    (block : Z) (w : world) : world :=
  let w' :=
    emit ([mprotect (block - page) page PROT_READ_WRITE;
           mprotect (block + (n - 2) * page) page PROT_READ_WRITE;
           print_backtrace (block - page) sizeof_stack]
          ++ release_calls cfg r (block - page))
      (put (block - page) {| size := size h; magic := 0; stack := backtrace r |} w) in
  if release_takes_place cfg r then relinquished (block - page) w' else w'.

(** The world the release primitive of the build leaves. *)
Definition after_release (cfg : build) (r : replies) (block : Z) (w : world) : world :=
  if release_takes_place cfg r
  then relinquished block (emit (release_calls cfg r block) w)
  else emit (release_calls cfg r block) w.

(** The calls that leave a block alone: they do not free it, and the
    platform does not hand out its pages a second time while it is
    allocated. *)
Definition spares (block page : Z) (cr : api_call * replies) : Prop :=
  match fst cr with
  | call_malloc _ => alloc_ptr (snd cr) <> block - page
  | call_free b => b <> block
  | _ => True
  end.

(** The header in front of [block] is allocated and is the one [malloc]
    wrote for a request of [bytes] bytes. *)
Definition live (page bytes block : Z) (w : world) : Prop :=
  s w = page /\
  block - page ∈ allocated w /\
  (exists st, heap w !! (block - page)
              = Some {| size := bytes; magic := 0x1337; stack := st |}).

(** The capacity and the alignment a call of an allocation primitive asks
    for; [valloc] and [create_area] take no alignment, their results are
    page-aligned by their own contract. *)
Definition requested_bytes (c : os_call) : option Z :=
  match c with
  | posix_memalign _ b | memalign _ b | aligned_malloc b _
  | create_area b | valloc b => Some b
  | _ => None
  end.

Definition requested_alignment (c : os_call) : option Z :=
  match c with
  | posix_memalign al _ | memalign al _ | aligned_malloc _ al => Some al
  | _ => None
  end.


(** ** Builds and replies used in the examples *)

Definition build_of (simulator windows beos posix_memalign_ memalign_ debug : bool)
    (sw : size_t_width) : build :=
  {| TORRENT_BUILD_SIMULATOR := simulator; TORRENT_WINDOWS := windows;
     TORRENT_BEOS := beos; TORRENT_USE_POSIX_MEMALIGN := posix_memalign_;
     TORRENT_USE_MEMALIGN := memalign_; TORRENT_DEBUG_BUFFERS := debug;
     size_t_model := sw |}.

(** A POSIX build, production and diagnostic. *)
Definition posix_build : build := build_of false false false true false false SIZE_T_64.
Definition posix_debug : build := build_of false false false true false true SIZE_T_64.
(** A BeOS build, production and diagnostic. *)
Definition beos_build : build := build_of false false true false false false SIZE_T_32.
Definition beos_debug : build := build_of false false true false false true SIZE_T_32.

(** The platform reports the page size [page] and allocates at [ptr]. *)
Definition answers (page ptr : Z) : replies :=
  {| reported_page_size := page; alloc_status := 0; alloc_ptr := ptr;
     backtrace := "malloc"; area := 1 |}.

(** ** A run of a diagnostic POSIX build

    A block of 8192 bytes is allocated at 0x10000; while it is live a
    second block is allocated at 0x20000, the first is queried and the
    second is freed. *)

Definition world_of (o : outcome unit) : world :=
  match o with Returned _ w => w | _ => initial_world end.

Definition scenario_w1 : world :=
  guarded (answers 4096 0x10000) 4096 4 8192 0x10000
    (acquired (Some 0x10000)
       (emit [sysconf_SC_PAGESIZE; posix_memalign 4096 16384] (paged 4096))).

Definition scenario_calls : list (api_call * replies) :=
  [(call_malloc 4096, answers 4096 0x20000);
   (call_in_use 0x11000, answers 4096 0);
   (call_free 0x21000, answers 4096 0)].

Definition scenario_w2 : world :=
  world_of (run posix_debug scenario_calls scenario_w1).

(** ** Counting the queries of the page size *)

(** The calls by which a build asks the platform for its page size. *)
Definition is_query (c : os_call) : bool :=
  match c with
  | sysconf_SC_PAGESIZE | GetSystemInfo => true
  | _ => false
  end.

Definition queries (t : list os_call) : nat := length (List.filter is_query t).

(** What holds of the static and of the queries in the trace throughout a
    process: no query was made while the static is 0, and at most one was
    made at all. *)
Definition asked_once (w : world) : Prop :=
  static_valid w /\
  (s w = 0 -> queries (trace w) = 0%nat) /\
  (queries (trace w) <= 1)%nat.

(** The calls of the diagnostic code around an allocation. *)
Definition is_diagnostic_call (c : os_call) : bool :=
  match c with
  | mprotect _ _ _ | print_backtrace _ _ => true
  | _ => false
  end.

(** * Properties *)

(** ** Integer conversions *)

Lemma cast_int_id z : INT_MIN <= z <= INT_MAX -> cast_int z = z.
Proof.
  unfold cast_int, INT_MIN, INT_MAX. intros H.
  rewrite Z.mod_small; lia.
Qed.

Lemma cast_size_t_id sw z : 0 <= z < 2 ^ 32 -> cast_size_t sw z = z.
Proof.
  intros H. unfold cast_size_t. apply Z.mod_small.
  destruct sw; simpl size_t_bits; lia.
Qed.

Lemma in_int_true z : in_int z = true <-> INT_MIN <= z <= INT_MAX.
Proof. unfold in_int. rewrite andb_true_iff, !Z.leb_le. tauto. Qed.

Lemma in_int64_true z : in_int64 z = true <-> INT64_MIN <= z <= INT64_MAX.
Proof. unfold in_int64. rewrite andb_true_iff, !Z.leb_le. tauto. Qed.

Lemma in_int_in_int64 z : in_int z = true -> in_int64 z = true.
Proof.
  rewrite in_int_true, in_int64_true.
  unfold INT_MIN, INT_MAX, INT64_MIN, INT64_MAX. lia.
Qed.

(** ** Powers of two *)

Lemma is_power_of_two_spec v : is_power_of_two v = true <-> power_of_two v.
Proof.
  unfold is_power_of_two, power_of_two. split.
  - intros H. apply andb_true_iff in H as [Hpos Heq].
    apply Z.ltb_lt in Hpos. apply Z.eqb_eq in Heq.
    exists (Z.to_nat (Z.log2 v)).
    rewrite Z2Nat.id by apply Z.log2_nonneg. lia.
  - intros [k ->]. apply andb_true_iff. split.
    + apply Z.ltb_lt. apply Z.pow_pos_nonneg; lia.
    + apply Z.eqb_eq. rewrite Z.log2_pow2 by lia. reflexivity.
Qed.

(** ** Running the monad *)

Lemma world_eta w :
  {| s := s w; heap := heap w; trace := trace w; allocated := allocated w |} = w.
Proof. destruct w; reflexivity. Qed.

Lemma emit_nil w : emit [] w = w.
Proof. unfold emit. rewrite app_nil_r. apply world_eta. Qed.

Lemma returned_inj {A} (a b : A) w w' :
  Returned a w = Returned b w' -> a = b /\ w = w'.
Proof. intros H. inversion H. auto. Qed.

Lemma bind_pure {A B} (a : A) (k : A -> M B) w : bind (pure a) k w = k a w.
Proof. reflexivity. Qed.

Lemma bind_returned {A B} (m : M A) (k : A -> M B) w a w1 :
  m w = Returned a w1 -> bind m k w = k a w1.
Proof. intros H. unfold bind. rewrite H. reflexivity. Qed.

Lemma bind_assoc {A B C} (m : M A) (k1 : A -> M B) (k2 : B -> M C) w :
  bind (bind m k1) k2 w = bind m (fun a => bind (k1 a) k2) w.
Proof. unfold bind. destruct (m w); reflexivity. Qed.

Lemma bind_inv {A B} (m : M A) (k : A -> M B) w b w' :
  bind m k w = Returned b w' ->
  exists a w1, m w = Returned a w1 /\ k a w1 = Returned b w'.
Proof.
  unfold bind. destruct (m w) as [a w1| |]; intros H; try discriminate.
  exists a, w1. split; [reflexivity | exact H].
Qed.

Lemma bind_call {B} c (k : unit -> M B) w : bind (call c) k w = k tt (emit [c] w).
Proof. reflexivity. Qed.

Lemma bind_store {B} p h (k : unit -> M B) w :
  p ∈ allocated w -> bind (store_header p h) k w = k tt (put p h w).
Proof.
  intros Ha. unfold bind, store_header. rewrite decide_True by exact Ha.
  reflexivity.
Qed.

Lemma bind_load {B} p h (k : alloc_header -> M B) w :
  p ∈ allocated w -> heap w !! p = Some h -> bind (load_header p) k w = k h w.
Proof.
  intros Ha H. unfold bind, load_header. rewrite decide_True by exact Ha.
  rewrite H. reflexivity.
Qed.

Lemma bind_load_released {B} p (k : alloc_header -> M B) w :
  p ∉ allocated w -> bind (load_header p) k w = Undefined.
Proof.
  intros Ha. unfold bind, load_header. rewrite decide_False by exact Ha.
  reflexivity.
Qed.

Lemma bind_acquire {B} p (k : unit -> M B) w :
  bind (acquire p) k w = k tt (acquired (Some p) w).
Proof. reflexivity. Qed.

Lemma bind_relinquish {B} p (k : unit -> M B) w :
  p ∈ allocated w -> bind (relinquish p) k w = k tt (relinquished p w).
Proof.
  intros Ha. unfold bind, relinquish. rewrite decide_True by exact Ha.
  reflexivity.
Qed.

Lemma bind_surrender {B} p (k : unit -> M B) w :
  bind (surrender p) k w = k tt (relinquished p w).
Proof. reflexivity. Qed.

Lemma s_acquired o w : s (acquired o w) = s w.
Proof. destruct o as [p|]; [|reflexivity]. cbn. destruct (p =? 0); reflexivity. Qed.

Lemma heap_acquired o w : heap (acquired o w) = heap w.
Proof. destruct o as [p|]; [|reflexivity]. cbn. destruct (p =? 0); reflexivity. Qed.

Lemma trace_acquired o w : trace (acquired o w) = trace w.
Proof. destruct o as [p|]; [|reflexivity]. cbn. destruct (p =? 0); reflexivity. Qed.

Lemma allocated_acquired p w :
  p <> 0 -> allocated (acquired (Some p) w) = {[p]} ∪ allocated w.
Proof. intros Hp. cbn. apply Z.eqb_neq in Hp. rewrite Hp. reflexivity. Qed.

Lemma allocated_acquired_mono o w q :
  q ∈ allocated w -> q ∈ allocated (acquired o w).
Proof.
  intros Hq. destruct o as [p|]; [|exact Hq]. cbn.
  destruct (p =? 0); [exact Hq|]. cbn. set_solver.
Qed.

Lemma bind_assert_true {B} c e (k : unit -> M B) w :
  c = true -> bind (TORRENT_ASSERT c e) k w = k tt w.
Proof. intros ->. reflexivity. Qed.

Lemma bind_assert_false {B} c e (k : unit -> M B) w :
  c = false -> bind (TORRENT_ASSERT c e) k w = AssertionFailed e.
Proof. intros ->. reflexivity. Qed.

Lemma bind_int_op {B} z (k : Z -> M B) w :
  in_int z = true -> bind (int_op z) k w = k z w.
Proof. intros H. unfold bind, int_op. rewrite H. reflexivity. Qed.

Lemma bind_int_op_undefined {B} z (k : Z -> M B) w :
  in_int z = false -> bind (int_op z) k w = Undefined.
Proof. intros H. unfold bind, int_op. rewrite H. reflexivity. Qed.

Lemma bind_int64_op {B} z (k : Z -> M B) w :
  in_int64 z = true -> bind (int64_op z) k w = k z w.
Proof. intros H. unfold bind, int64_op. rewrite H. reflexivity. Qed.

(** ** page_size *)

Lemma query_page_size_eq cfg r w :
  query_page_size cfg r w = Returned (queried cfg r) (emit (query_calls cfg) w).
Proof.
  unfold query_page_size, queried, query_calls.
  destruct (TORRENT_BUILD_SIMULATOR cfg); [unfold pure; rewrite emit_nil; reflexivity|].
  destruct (TORRENT_WINDOWS cfg); [reflexivity|].
  destruct (TORRENT_BEOS cfg); [unfold pure; rewrite emit_nil; reflexivity|].
  reflexivity.
Qed.

(** [page_size] always returns: its value and the world it leaves. *)
Lemma page_size_eq cfg r w :
  page_size cfg r w = Returned (page_value cfg r w) (page_world cfg r w).
Proof.
  unfold page_size, page_value, page_world, page_value.
  unfold bind at 1. unfold get_s. cbv beta iota.
  destruct (s w =? 0) eqn:Hs; cbn [negb].
  - rewrite (bind_returned _ _ _ _ _ (query_page_size_eq cfg r w)).
    reflexivity.
  - reflexivity.
Qed.

Lemma bind_page_size {B} cfg r (k : Z -> M B) w :
  bind (page_size cfg r) k w = k (page_value cfg r w) (page_world cfg r w).
Proof. apply bind_returned, page_size_eq. Qed.

(** Runs the steps of a computation that always return. *)
Ltac mrun :=
  repeat first [ rewrite bind_assoc | rewrite bind_pure | rewrite bind_call
               | rewrite bind_acquire | rewrite bind_surrender
               | rewrite bind_page_size ].

Lemma page_value_nonzero cfg r w : page_value cfg r w <> 0.
Proof.
  unfold page_value. destruct (s w =? 0) eqn:Hs.
  - destruct (queried cfg r <=? 0) eqn:Hq; [lia | apply Z.leb_gt in Hq; lia].
  - apply Z.eqb_neq in Hs. exact Hs.
Qed.

Lemma page_value_pos cfg r w : static_valid w -> 0 < page_value cfg r w.
Proof.
  unfold static_valid. intros H. pose proof (page_value_nonzero cfg r w) as Hn.
  unfold page_value in *. destruct (s w =? 0) eqn:Hs.
  - destruct (queried cfg r <=? 0) eqn:Hq; [lia | apply Z.leb_gt in Hq; lia].
  - lia.
Qed.

Lemma page_value_cached cfg r w : s w <> 0 -> page_value cfg r w = s w.
Proof. intros H. unfold page_value. apply Z.eqb_neq in H. rewrite H. reflexivity. Qed.

Lemma page_world_cached cfg r w : s w <> 0 -> page_world cfg r w = w.
Proof. intros H. unfold page_world. apply Z.eqb_neq in H. rewrite H. reflexivity. Qed.

Lemma s_page_world cfg r w : s (page_world cfg r w) = page_value cfg r w.
Proof.
  unfold page_world. destruct (s w =? 0) eqn:Hs; [reflexivity|].
  unfold page_value. rewrite Hs. reflexivity.
Qed.

Lemma heap_page_world cfg r w : heap (page_world cfg r w) = heap w.
Proof. unfold page_world. destruct (s w =? 0); reflexivity. Qed.

Lemma allocated_page_world cfg r w : allocated (page_world cfg r w) = allocated w.
Proof. unfold page_world. destruct (s w =? 0); reflexivity. Qed.

Lemma page_value_again cfg r r' w :
  page_value cfg r' (page_world cfg r w) = page_value cfg r w.
Proof.
  rewrite page_value_cached; rewrite s_page_world; [reflexivity|].
  apply page_value_nonzero.
Qed.

Lemma page_world_again cfg r r' w :
  page_world cfg r' (page_world cfg r w) = page_world cfg r w.
Proof.
  apply page_world_cached. rewrite s_page_world. apply page_value_nonzero.
Qed.

(** ** Arithmetic of the page count *)

Lemma land_bounds a b : 0 <= a -> 0 <= b -> 0 <= Z.land a b <= b.
Proof.
  intros Ha Hb. rewrite <- (Z2N.id a Ha), <- (Z2N.id b Hb), <- N2Z.inj_land.
  split; [apply N2Z.is_nonneg | apply N2Z.inj_le, N.land_le_r].
Qed.

(** The quotient of line 110 is the ceiling of [bytes / page]. *)
Lemma quot_is_ceil bytes page :
  0 < page -> 0 < bytes -> is_ceil_div bytes page ((bytes + (page - 1)) ÷ page).
Proof.
  intros Hp Hb. unfold is_ceil_div.
  rewrite Z.quot_div_nonneg by lia.
  pose proof (Z.div_mod (bytes + (page - 1)) page ltac:(lia)) as Hdm.
  pose proof (Z.mod_pos_bound (bytes + (page - 1)) page Hp) as Hm.
  nia.
Qed.

Lemma ceil_div_unique bytes page n m :
  0 < page -> is_ceil_div bytes page n -> is_ceil_div bytes page m -> n = m.
Proof. unfold is_ceil_div. intros Hp Hn Hm. nia. Qed.

(** Past the assertions of [malloc], every value of line 110 lies in [int],
    whatever integer type [size_type] is. *)
Lemma num_pages_in_int bytes page :
  0 < page -> page <= bytes -> bytes < 0x30000000 ->
  in_int (page - 1) = true /\
  in_int (bytes + (page - 1)) = true /\
  in_int ((bytes + (page - 1)) ÷ page) = true /\
  in_int ((bytes + (page - 1)) ÷ page + 2) = true /\
  3 <= (bytes + (page - 1)) ÷ page + 2.
Proof.
  intros Hp Hle Hb. pose proof (quot_is_ceil bytes page Hp ltac:(lia)) as Hc.
  unfold is_ceil_div in Hc.
  assert (1 <= (bytes + (page - 1)) ÷ page <= bytes) by nia.
  rewrite !in_int_true. unfold INT_MIN, INT_MAX. lia.
Qed.

Lemma request_num_pages_eq bytes page w :
  0 < page -> page <= bytes -> bytes < 0x30000000 ->
  request_num_pages page bytes w = Returned ((bytes + (page - 1)) ÷ page + 2) w.
Proof.
  intros Hp Hle Hb.
  destruct (num_pages_in_int bytes page Hp Hle Hb) as (H1 & _ & _ & H4 & _).
  unfold request_num_pages. rewrite bind_int_op by exact H1.
  unfold pure. rewrite cast_int_id by (apply in_int_true; exact H4).
  reflexivity.
Qed.

Lemma header_num_pages_eq bytes page w :
  0 < page -> page <= bytes -> bytes < 0x30000000 ->
  header_num_pages page bytes w = Returned ((bytes + (page - 1)) ÷ page + 2) w.
Proof.
  intros Hp Hle Hb.
  destruct (num_pages_in_int bytes page Hp Hle Hb) as (H1 & H2 & H3 & H4 & _).
  unfold header_num_pages. rewrite bind_int_op by exact H1.
  rewrite !bind_int64_op by (apply in_int_in_int64; assumption).
  unfold pure. rewrite cast_int_id by (apply in_int_true; exact H4).
  reflexivity.
Qed.

(** ** The stages of malloc *)

Lemma debug_resize_eq cfg r bytes w :
  let page := page_value cfg r w in
  let n := (bytes + (page - 1)) ÷ page + 2 in
  0 < page -> page <= bytes -> bytes < 0x30000000 ->
  debug_resize cfg r bytes w =
  if in_int (n * page)
  then Returned (page, n, bytes, n * page) (page_world cfg r w)
  else Undefined.
Proof.
  intros page n Hp Hle Hb. unfold debug_resize.
  rewrite bind_page_size. fold page.
  rewrite (bind_returned _ _ _ _ _ (request_num_pages_eq bytes page _ Hp Hle Hb)).
  fold n. destruct (in_int (n * page)) eqn:Hn.
  - rewrite bind_int_op by exact Hn. unfold pure.
    rewrite cast_int_id; [reflexivity|].
    unfold INT_MIN, INT_MAX. lia.
  - apply bind_int_op_undefined. exact Hn.
Qed.

Lemma platform_alloc_eq cfg r bytes w :
  0 < s w < 2 ^ 32 -> 0 <= bytes < 2 ^ 32 ->
  platform_alloc cfg r bytes w =
  Returned (alloc_result cfg r)
    (acquired (alloc_result cfg r) (emit [alloc_request cfg (s w) bytes] w)).
Proof.
  intros Hs Hb. unfold platform_alloc, alloc_result, alloc_request.
  assert (Hv : forall r', page_value cfg r' w = s w)
    by (intros; apply page_value_cached; lia).
  assert (Hw : forall r', page_world cfg r' w = w)
    by (intros; apply page_world_cached; lia).
  destruct (TORRENT_USE_POSIX_MEMALIGN cfg);
    [|destruct (TORRENT_USE_MEMALIGN cfg);
      [|destruct (TORRENT_WINDOWS cfg); [|destruct (TORRENT_BEOS cfg)]]];
    cbv zeta;
    rewrite ?bind_page_size, ?Hv, ?Hw, ?bind_call, ?bind_page_size, ?Hv, ?Hw, ?bind_call;
    rewrite ?(cast_size_t_id _ (s w)), ?(cast_size_t_id _ bytes) by lia;
    try reflexivity.
  rewrite cast_size_t_id.
  - destruct (alloc_status r <? B_OK); reflexivity.
  - pose proof (land_bounds (bytes + s w - 1) (s w - 1)). lia.
Qed.

Lemma debug_install_eq cfg r p page n orig w :
  p ∈ allocated w ->
  0 < page < 2 ^ 32 -> in_int (n - 1) = true -> in_int ((n - 1) * page) = true ->
  debug_install cfg r p page n orig w =
  Returned (p + page)
    (emit [print_backtrace p sizeof_stack; mprotect p page PROT_READ;
           mprotect (p + (n - 1) * page) page PROT_READ]
       (put p {| size := orig; magic := 0x1337; stack := backtrace r |} w)).
Proof.
  intros Ha Hp Hn1 Hoff. unfold debug_install, capture_backtrace.
  rewrite bind_store by exact Ha. rewrite bind_assoc.
  rewrite (bind_load _ {| size := orig; magic := 0x1337; stack := EmptyString |})
    by (simpl; first [exact Ha | apply lookup_insert_eq]).
  rewrite bind_assoc, bind_call. rewrite bind_store by exact Ha. rewrite bind_call.
  rewrite bind_int_op by exact Hn1. rewrite bind_int_op by exact Hoff.
  rewrite bind_call. unfold pure. cbn [size magic stack].
  rewrite cast_size_t_id by lia.
  unfold emit, put; cbn [s heap trace allocated].
  rewrite insert_insert_eq, <- !app_assoc. reflexivity.
Qed.

(** ** malloc in closed form *)

Lemma malloc_eq cfg r bytes w :
  static_valid w ->
  let page := page_value cfg r w in
  let w0 := page_world cfg r w in
  malloc cfg r bytes w =
  if negb (0 <? bytes) then AssertionFailed "bytes > 0"
  else if negb (bytes <? 0x30000000) then AssertionFailed "bytes < 0x30000000"
  else if negb (page <=? cast_int bytes)
       then AssertionFailed "int(bytes) >= page_size()"
  else if TORRENT_DEBUG_BUFFERS cfg then
    let n := (bytes + (page - 1)) ÷ page + 2 in
    if in_int (n * page) then
      let w1 := acquired (alloc_result cfg r)
                  (emit [alloc_request cfg page (n * page)] w0) in
      match alloc_result cfg r with
      | None => Returned 0 w1
      | Some raw => if raw =? 0 then Returned 0 w1
                    else Returned (raw + page) (guarded r page n bytes raw w1)
      end
    else Undefined
  else
    let w1 := acquired (alloc_result cfg r)
                (emit [alloc_request cfg page bytes] w0) in
    match alloc_result cfg r with
    | None => Returned 0 w1
    | Some raw => Returned raw w1
    end.
Proof.
  intros Hw page w0. unfold malloc.
  pose proof (page_value_pos cfg r w Hw) as Hp. fold page in Hp.
  destruct (0 <? bytes) eqn:H1; cbn [negb];
    [rewrite bind_assert_true by reflexivity
    |rewrite bind_assert_false by reflexivity; reflexivity].
  destruct (bytes <? 0x30000000) eqn:H2; cbn [negb];
    [rewrite bind_assert_true by reflexivity
    |rewrite bind_assert_false by reflexivity; reflexivity].
  apply Z.ltb_lt in H1, H2.
  rewrite bind_page_size. fold page w0.
  assert (Hc : cast_int bytes = bytes)
    by (apply cast_int_id; unfold INT_MIN, INT_MAX; lia).
  rewrite Hc.
  destruct (page <=? bytes) eqn:H3; cbn [negb];
    [rewrite bind_assert_true by reflexivity
    |rewrite bind_assert_false by reflexivity; reflexivity].
  apply Z.leb_le in H3.
  assert (Hs0 : s w0 = page) by apply s_page_world.
  assert (Hv0 : page_value cfg r w0 = page) by apply page_value_again.
  assert (Hw0 : page_world cfg r w0 = w0) by apply page_world_again.
  destruct (TORRENT_DEBUG_BUFFERS cfg).
  - pose proof (debug_resize_eq cfg r bytes w0) as Hr. cbv zeta in Hr.
    rewrite Hv0, Hw0 in Hr. specialize (Hr Hp H3 H2).
    cbv zeta.
    destruct (in_int (((bytes + (page - 1)) ÷ page + 2) * page)) eqn:Hn.
    + rewrite (bind_returned _ _ _ _ _ Hr).
      destruct (num_pages_in_int bytes page Hp H3 H2) as (_ & _ & _ & _ & H5).
      apply in_int_true in Hn. unfold INT_MIN, INT_MAX in Hn.
      rewrite (bind_returned _ _ _ _ _
                 (platform_alloc_eq cfg r (((bytes + (page - 1)) ÷ page + 2) * page)
                    w0 ltac:(lia) ltac:(nia))).
      rewrite Hs0.
      destruct (alloc_result cfg r) as [raw|]; [|reflexivity].
      destruct (raw =? 0) eqn:Hz; [reflexivity|].
      apply Z.eqb_neq in Hz.
      apply debug_install_eq; [|lia| |];
        [rewrite allocated_acquired by exact Hz; set_solver| |];
        apply in_int_true; unfold INT_MIN, INT_MAX; nia.
    + unfold bind. rewrite Hr. reflexivity.
  - rewrite (bind_returned _ _ _ _ _
               (platform_alloc_eq cfg r bytes w0 ltac:(lia) ltac:(lia))).
    rewrite Hs0. cbv zeta.
    destruct (alloc_result cfg r) as [raw|]; [|reflexivity].
    destruct (raw =? 0) eqn:Hz; [|reflexivity].
    apply Z.eqb_eq in Hz. subst raw. reflexivity.
Qed.

(** ** free and in_use in closed form *)

Lemma platform_free_returns cfg r block w :
  block ∈ allocated w \/ release_needs_allocation cfg = false ->
  platform_free cfg r block w = Returned tt (after_release cfg r block w).
Proof.
  unfold platform_free, after_release, release_calls, release_takes_place,
    release_needs_allocation.
  destruct (TORRENT_WINDOWS cfg); cbn [orb negb].
  { intros [Ha|Ha]; [|discriminate]. rewrite bind_call.
    unfold relinquish. rewrite decide_True by exact Ha. reflexivity. }
  destruct (TORRENT_BEOS cfg); cbn [orb negb].
  - intros _. rewrite bind_call. destruct (area r <? B_OK); cbn [negb].
    + reflexivity.
    + rewrite bind_call. unfold surrender, relinquished, emit; cbn [s heap trace allocated].
      rewrite <- app_assoc. reflexivity.
  - intros [Ha|Ha]; [|discriminate]. rewrite bind_call.
    unfold relinquish. rewrite decide_True by exact Ha. reflexivity.
Qed.

Lemma platform_free_undefined cfg r block w :
  release_needs_allocation cfg = true -> block ∉ allocated w ->
  platform_free cfg r block w = Undefined.
Proof.
  unfold platform_free, release_needs_allocation. intros Hn Ha.
  destruct (TORRENT_WINDOWS cfg); cbn [orb negb] in Hn.
  { rewrite bind_call. unfold relinquish. rewrite decide_False by exact Ha.
    reflexivity. }
  destruct (TORRENT_BEOS cfg); [discriminate|].
  rewrite bind_call. unfold relinquish. rewrite decide_False by exact Ha.
  reflexivity.
Qed.

Lemma platform_free_inv cfg r block w w' :
  platform_free cfg r block w = Returned tt w' ->
  w' = after_release cfg r block w /\
  (block ∈ allocated w \/ release_needs_allocation cfg = false).
Proof.
  intros H. destruct (decide (block ∈ allocated w)) as [Ha|Ha].
  - rewrite platform_free_returns in H by auto. inversion H. auto.
  - destruct (release_needs_allocation cfg) eqn:Hn.
    + rewrite platform_free_undefined in H by assumption. discriminate.
    + rewrite platform_free_returns in H by auto. inversion H. auto.
Qed.

Lemma s_after_release cfg r block w : s (after_release cfg r block w) = s w.
Proof. unfold after_release. destruct (release_takes_place cfg r); reflexivity. Qed.

Lemma heap_after_release cfg r block w : heap (after_release cfg r block w) = heap w.
Proof. unfold after_release. destruct (release_takes_place cfg r); reflexivity. Qed.

Lemma trace_after_release cfg r block w :
  trace (after_release cfg r block w) = trace w ++ release_calls cfg r block.
Proof. unfold after_release. destruct (release_takes_place cfg r); reflexivity. Qed.

Lemma allocated_after_release cfg r block w :
  allocated (after_release cfg r block w)
  = if release_takes_place cfg r then allocated w ∖ {[block]} else allocated w.
Proof. unfold after_release. destruct (release_takes_place cfg r); reflexivity. Qed.

(** A production [free] of a non-null block is the release primitive. *)
Lemma free_plain cfg r block w :
  TORRENT_DEBUG_BUFFERS cfg = false -> block <> 0 ->
  free cfg r block w = platform_free cfg r block w.
Proof.
  intros Hd Hb. unfold free. apply Z.eqb_neq in Hb. rewrite Hb, Hd.
  rewrite bind_pure. reflexivity.
Qed.

Section DiagnosticFree.
Variables (cfg : build) (r : replies) (block : Z) (w : world) (h : alloc_header).
Variables (page n : Z).

Hypothesis Hdebug : TORRENT_DEBUG_BUFFERS cfg = true.
Hypothesis Hblock : block <> 0.
Hypothesis Hvalue : page_value cfg r w = page.
Hypothesis Hcount : (size h + (page - 1)) ÷ page + 2 = n.
Hypothesis Hpage : 0 < page.
Hypothesis Hmapped : block - page ∈ allocated w.
Hypothesis Hheader : heap w !! (block - page) = Some h.
Hypothesis Hsize : page <= size h < 0x30000000.

(** A header whose tag is not the live value stops [free] at its
    assertion. *)
Lemma free_not_live :
  magic h <> 0x1337 -> free cfg r block w = AssertionFailed "h->magic == 0x1337".
Proof using All.
  intros Hm. unfold free. apply Z.eqb_neq in Hblock. rewrite Hblock, Hdebug.
  unfold debug_release. mrun. rewrite Hvalue.
  rewrite (bind_load _ h)
    by (unfold emit; cbn [heap allocated];
        rewrite ?heap_page_world, ?allocated_page_world; assumption).
  mrun.
  rewrite (bind_returned _ _ _ _ _
             (header_num_pages_eq (size h) page _ Hpage ltac:(lia) ltac:(lia))).
  mrun. apply bind_assert_false. apply Z.eqb_neq. exact Hm.
Qed.

(** A live header lets [free] through. *)
Lemma free_live :
  magic h = 0x1337 ->
  free cfg r block w =
  Returned tt (released cfg r page n h block (page_world cfg r w)).
Proof using All.
  intros Hm. unfold free. apply Z.eqb_neq in Hblock. rewrite Hblock, Hdebug.
  unfold debug_release. mrun. rewrite Hvalue.
  rewrite (bind_load _ h)
    by (unfold emit; cbn [heap allocated];
        rewrite ?heap_page_world, ?allocated_page_world; assumption).
  mrun.
  rewrite (bind_returned _ _ _ _ _
             (header_num_pages_eq (size h) page _ Hpage ltac:(lia) ltac:(lia))).
  rewrite Hcount. mrun.
  rewrite bind_assert_true by (apply Z.eqb_eq; exact Hm).
  destruct (num_pages_in_int (size h) page Hpage ltac:(lia) ltac:(lia))
    as (_ & _ & _ & _ & H5). rewrite Hcount in H5.
  pose proof (quot_is_ceil (size h) page Hpage ltac:(lia)) as Hc.
  unfold is_ceil_div in Hc.
  mrun. rewrite bind_int_op
    by (apply in_int_true; unfold INT_MIN, INT_MAX; lia).
  mrun. rewrite bind_int_op
    by (apply in_int_true; unfold INT_MIN, INT_MAX; subst n; nia).
  mrun.
  rewrite bind_store
    by (unfold emit; cbn [allocated]; rewrite allocated_page_world; assumption).
  unfold capture_backtrace. mrun.
  rewrite (bind_load _ {| size := size h; magic := 0; stack := stack h |})
    by (unfold emit, put; cbn [heap allocated];
        first [rewrite allocated_page_world; assumption | apply lookup_insert_eq]).
  mrun.
  rewrite bind_store
    by (unfold emit, put; cbn [allocated]; rewrite allocated_page_world; assumption).
  mrun.
  rewrite platform_free_returns
    by (left; unfold emit, put; cbn [allocated]; rewrite allocated_page_world;
        assumption).
  f_equal. rewrite !cast_size_t_id by lia.
  unfold released, after_release.
  destruct (release_takes_place cfg r);
    unfold relinquished, emit, put; cbn [s heap trace allocated size magic stack];
    rewrite insert_insert_eq, <- !app_assoc; reflexivity.
Qed.
End DiagnosticFree.

Lemma in_use_eq cfg r block w h :
  block - page_value cfg r w ∈ allocated w ->
  heap w !! (block - page_value cfg r w) = Some h ->
  in_use cfg r block w = Returned (magic h =? 0x1337) (page_world cfg r w).
Proof.
  intros Ha Hh. unfold in_use. rewrite bind_page_size.
  rewrite (bind_load _ h)
    by (rewrite ?heap_page_world, ?allocated_page_world; assumption).
  reflexivity.
Qed.

(** Through a pointer that is not allocated [in_use] reads released
    memory. *)
Lemma in_use_released cfg r block w :
  block - page_value cfg r w ∉ allocated w ->
  in_use cfg r block w = Undefined.
Proof.
  intros Ha. unfold in_use. rewrite bind_page_size.
  apply bind_load_released. rewrite allocated_page_world. exact Ha.
Qed.

(** ** Inverting a computation that returned *)

Lemma int_op_inv {B} z (k : Z -> M B) w b w' :
  bind (int_op z) k w = Returned b w' -> in_int z = true /\ k z w = Returned b w'.
Proof.
  unfold bind, int_op. destruct (in_int z); [auto | discriminate].
Qed.

Lemma int64_op_inv {B} z (k : Z -> M B) w b w' :
  bind (int64_op z) k w = Returned b w' -> in_int64 z = true /\ k z w = Returned b w'.
Proof.
  unfold bind, int64_op. destruct (in_int64 z); [auto | discriminate].
Qed.

Lemma assert_inv {B} c e (k : unit -> M B) w b w' :
  bind (TORRENT_ASSERT c e) k w = Returned b w' -> c = true /\ k tt w = Returned b w'.
Proof.
  unfold bind, TORRENT_ASSERT. destruct c; [auto | discriminate].
Qed.

Lemma load_inv {B} p (k : alloc_header -> M B) w b w' :
  bind (load_header p) k w = Returned b w' ->
  exists h, p ∈ allocated w /\ heap w !! p = Some h /\ k h w = Returned b w'.
Proof.
  unfold bind, load_header. destruct (decide (p ∈ allocated w)); [|discriminate].
  destruct (heap w !! p) as [h|]; [eauto | discriminate].
Qed.

Lemma store_inv {B} p h (k : unit -> M B) w b w' :
  bind (store_header p h) k w = Returned b w' ->
  p ∈ allocated w /\ k tt (put p h w) = Returned b w'.
Proof.
  unfold bind, store_header. destruct (decide (p ∈ allocated w)); [auto|discriminate].
Qed.

Ltac minv H :=
  repeat first
    [ rewrite bind_assoc in H | rewrite bind_pure in H | rewrite bind_call in H
    | rewrite bind_acquire in H | rewrite bind_surrender in H
    | rewrite bind_page_size in H
    | let E := fresh "Hint" in apply int_op_inv in H as [E H]
    | let E := fresh "Hint" in apply int64_op_inv in H as [E H]
    | let E := fresh "Hassert" in apply assert_inv in H as [E H]
    | let E := fresh "Hstore" in apply store_inv in H as [E H]
    | let h := fresh "h" in let A := fresh "Hmapped" in let E := fresh "Hload" in
      apply load_inv in H as (h & A & E & H) ].

(** What a [free] that returns has done to the static, to the headers and
    to the allocations: nothing but the call of [page_size], in a diagnostic
    build a write to the header in front of the block, and the release of
    the pointer handed to the primitive. *)
Lemma free_frame cfg r block w w' :
  free cfg r block w = Returned tt w' ->
  (s w' = s w \/ s w' = page_value cfg r w) /\
  (heap w' = heap w \/
   exists h', heap w' = <[block - page_value cfg r w := h']> (heap w)) /\
  (forall q, q ∈ allocated w ->
             q <> (if TORRENT_DEBUG_BUFFERS cfg
                   then block - page_value cfg r w else block) ->
             q ∈ allocated w').
Proof.
  unfold free. destruct (block =? 0).
  { intros H. inversion H; subst. auto. }
  destruct (TORRENT_DEBUG_BUFFERS cfg).
  - unfold debug_release, header_num_pages, capture_backtrace. intros H.
    minv H. apply platform_free_inv in H as [-> _].
    rewrite s_after_release, heap_after_release, allocated_after_release.
    cbn [emit put s heap trace allocated].
    rewrite s_page_world, heap_page_world, allocated_page_world.
    split; [right; reflexivity|]. split.
    + right. rewrite insert_insert_eq. eexists. reflexivity.
    + intros q Hq Hne. destruct (release_takes_place cfg r); set_solver.
  - intros H. minv H. apply platform_free_inv in H as [-> _].
    rewrite s_after_release, heap_after_release, allocated_after_release.
    cbn [emit s heap allocated]. split; [auto|]. split; [auto|].
    intros q Hq Hne. destruct (release_takes_place cfg r); set_solver.
Qed.

Lemma in_use_frame cfg r block w b w' :
  in_use cfg r block w = Returned b w' -> w' = page_world cfg r w.
Proof.
  unfold in_use. intros H. minv H. inversion H; subst. reflexivity.
Qed.

(** A pointer the code of [malloc] goes on with is null or the pointer the
    primitive produced. *)
Lemma alloc_result_ptr cfg r raw :
  alloc_result cfg r = Some raw -> raw <> 0 -> raw = alloc_ptr r.
Proof.
  unfold alloc_result.
  destruct (TORRENT_USE_POSIX_MEMALIGN cfg).
  - destruct (negb (alloc_status r =? 0)); intros E; inversion E; subst; tauto.
  - destruct (TORRENT_USE_MEMALIGN cfg); [congruence|].
    destruct (TORRENT_WINDOWS cfg); [congruence|].
    destruct (TORRENT_BEOS cfg); [|congruence].
    destruct (alloc_status r <? B_OK); congruence.
Qed.

(** What a [malloc] that returns has done to the static, to the headers
    and to the allocations. *)
Lemma malloc_frame cfg r bytes w a w' :
  static_valid w ->
  malloc cfg r bytes w = Returned a w' ->
  s w' = page_value cfg r w /\
  (heap w' = heap w \/
   exists h', alloc_result cfg r = Some (a - page_value cfg r w) /\ a <> page_value cfg r w /\
              TORRENT_DEBUG_BUFFERS cfg = true /\
              heap w' = <[a - page_value cfg r w := h']> (heap w)) /\
  (forall q, q ∈ allocated w -> q ∈ allocated w').
Proof.
  intros Hw H. rewrite malloc_eq in H by exact Hw. cbv zeta in H.
  destruct (negb (0 <? bytes)); [discriminate|].
  destruct (negb (bytes <? 0x30000000)); [discriminate|].
  destruct (negb (page_value cfg r w <=? cast_int bytes)); [discriminate|].
  assert (Hfacts : forall b w1,
            w1 = acquired (alloc_result cfg r)
                   (emit [alloc_request cfg (page_value cfg r w) b]
                      (page_world cfg r w)) ->
            s w1 = page_value cfg r w /\ heap w1 = heap w /\
            (forall q, q ∈ allocated w -> q ∈ allocated w1)).
  { intros b w1 ->. rewrite s_acquired, heap_acquired. cbn [emit s heap].
    rewrite s_page_world, heap_page_world. split; [reflexivity|].
    split; [reflexivity|]. intros q Hq. apply allocated_acquired_mono.
    cbn [emit allocated]. rewrite allocated_page_world. exact Hq. }
  destruct (TORRENT_DEBUG_BUFFERS cfg).
  - destruct (in_int _); [|discriminate].
    remember (acquired _ _) as w1 eqn:Hw1 in H.
    destruct (Hfacts _ _ Hw1) as (Hs1 & Hh1 & Ha1). clear Hw1 Hfacts.
    destruct (alloc_result cfg r) as [raw|].
    + destruct (raw =? 0) eqn:Hraw.
      * apply returned_inj in H as [<- <-]. auto.
      * apply returned_inj in H as [<- <-].
        unfold guarded. cbn [emit put s heap allocated].
        split; [exact Hs1|]. split; [|exact Ha1].
        right. apply Z.eqb_neq in Hraw. rewrite Hh1.
        replace (raw + page_value cfg r w - page_value cfg r w) with raw by lia.
        eexists. split; [reflexivity|]. split; [lia|]. split; reflexivity.
    + apply returned_inj in H as [<- <-]. auto.
  - remember (acquired _ _) as w1 eqn:Hw1 in H.
    destruct (Hfacts _ _ Hw1) as (Hs1 & Hh1 & Ha1). clear Hw1 Hfacts.
    destruct (alloc_result cfg r) as [raw|];
      apply returned_inj in H as [<- <-]; auto.
Qed.

(** ** The static along a sequence of calls *)

Lemma exec_static cfg c r w w' :
  static_valid w -> exec cfg c r w = Returned tt w' ->
  s w' = s w \/ s w' = page_value cfg r w.
Proof.
  intros Hw H. destruct c as [|bytes|block|block]; cbn [exec] in H.
  - minv H. inversion H; subst. right. apply s_page_world.
  - apply bind_inv in H as (a & w1 & Hm & H). inversion H; subst.
    right. apply (malloc_frame _ _ _ _ _ _ Hw Hm).
  - apply (free_frame _ _ _ _ _ H).
  - apply bind_inv in H as (b & w1 & Hm & H). inversion H; subst.
    apply in_use_frame in Hm. subst. right. apply s_page_world.
Qed.

Lemma exec_static_valid cfg c r w w' :
  static_valid w -> exec cfg c r w = Returned tt w' -> static_valid w'.
Proof.
  intros Hw H. pose proof (page_value_pos cfg r w Hw).
  unfold static_valid in *.
  destruct (exec_static _ _ _ _ _ Hw H) as [-> | ->]; lia.
Qed.

Lemma exec_static_cached cfg c r w w' :
  0 < s w -> exec cfg c r w = Returned tt w' -> s w' = s w.
Proof.
  intros Hs H.
  destruct (exec_static cfg c r w w' ltac:(unfold static_valid; lia) H) as [E|E];
    rewrite E; [reflexivity | apply page_value_cached; lia].
Qed.

(** A process never sees a negative static. *)
Lemma run_static_valid cfg cs : forall w w',
  static_valid w -> run cfg cs w = Returned tt w' -> static_valid w'.
Proof.
  induction cs as [|[c r] cs IH]; intros w w' Hw H; cbn [run] in H.
  - inversion H; subst. exact Hw.
  - apply bind_inv in H as ([] & w1 & Hc & H).
    eapply IH; [|exact H]. eapply exec_static_valid; eauto.
Qed.

(** Once set, the static is not written again. *)
Lemma run_static_cached cfg cs : forall w w',
  0 < s w -> run cfg cs w = Returned tt w' -> s w' = s w.
Proof.
  induction cs as [|[c r] cs IH]; intros w w' Hw H; cbn [run] in H.
  - inversion H; subst. reflexivity.
  - apply bind_inv in H as ([] & w1 & Hc & H).
    pose proof (exec_static_cached _ _ _ _ _ Hw Hc) as E.
    rewrite <- E. apply IH; [lia | exact H].
Qed.

(** ** page_size: the specification's claims *)

(** C6.  [page_size] never fails and always returns a positive integer: in
    every world a process can be in it returns, and its value is positive;
    when it makes the query and the query fails or yields a non-positive
    value (what the branch of the build obtains, an [int]), the value is the
    default 4096. *)
Theorem page_size_never_fails cfg r w :
  static_valid w ->
  exists v w',
    page_size cfg r w = Returned v w' /\
    0 < v /\
    (forall q wq, s w = 0 -> query_page_size cfg r w = Returned q wq ->
                  q <= 0 -> v = 4096) /\
    (s w = 0 -> cast_int (reported_page_size r) <= 0 -> v = 4096).
Proof.
  intros Hw. exists (page_value cfg r w), (page_world cfg r w).
  split; [apply page_size_eq|]. split; [apply page_value_pos; exact Hw|].
  unfold page_value. split.
  - intros q wq Hs Hq Hle. rewrite query_page_size_eq in Hq.
    inversion Hq; subst q wq. rewrite Hs. cbn [Z.eqb].
    apply Z.leb_le in Hle. rewrite Hle. reflexivity.
  - intros Hs Hq. rewrite Hs. cbn [Z.eqb].
    revert Hq. unfold queried, B_PAGE_SIZE.
    destruct (TORRENT_BUILD_SIMULATOR cfg); [reflexivity|].
    destruct (TORRENT_WINDOWS cfg);
      [|destruct (TORRENT_BEOS cfg); [reflexivity|]];
      intros Hq; apply Z.leb_le in Hq; rewrite Hq; reflexivity.
Qed.

(** The query fails in a fresh POSIX process: [sysconf] answers -1. *)
Lemma page_size_never_fails_witness :
  static_valid initial_world /\
  exists v w',
    page_size posix_build (answers (-1) 0) initial_world = Returned v w' /\
    0 < v /\
    (forall q wq, s initial_world = 0 ->
                  query_page_size posix_build (answers (-1) 0) initial_world
                  = Returned q wq ->
                  q <= 0 -> v = 4096) /\
    (s initial_world = 0 ->
     cast_int (reported_page_size (answers (-1) 0)) <= 0 -> v = 4096).
Proof.
  split.
  - unfold static_valid. simpl. lia.
  - apply (page_size_never_fails posix_build (answers (-1) 0) initial_world).
    unfold static_valid. simpl. lia.
Defined.

(** The first call of a process has the value, every later call repeats it. *)
Lemma page_size_repeats cfg r w v w1 :
  static_valid w ->
  page_size cfg r w = Returned v w1 ->
  forall cs w2, run cfg cs w1 = Returned tt w2 ->
  forall r', page_size cfg r' w2 = Returned v w2.
Proof.
  intros Hw H cs w2 Hrun r'. rewrite page_size_eq in H. inversion H; subst.
  pose proof (page_value_pos cfg r w Hw) as Hp.
  assert (Hs : s w2 = page_value cfg r w).
  { rewrite <- (s_page_world cfg r w). apply (run_static_cached cfg cs).
    - rewrite s_page_world. exact Hp.
    - exact Hrun. }
  rewrite page_size_eq.
  rewrite page_value_cached, page_world_cached by lia.
  rewrite Hs. reflexivity.
Qed.

(** C5.  [page_size] returns the same value on every call within a
    process, and the value is a power of two.  On a build that asks the
    platform it is not less than the page size the platform reports: it is
    the reported size, or the default 4096 when the query fails (a
    non-positive report).  On the other builds it is 4096.  The platform's
    report is a power of two that fits an [int], or a non-positive [int]. *)
Theorem page_size_stable cfg r w v w1 :
  s w = 0 ->
  plausible_report (reported_page_size r) ->
  page_size cfg r w = Returned v w1 ->
  (forall cs w2, run cfg cs w1 = Returned tt w2 ->
     forall r', page_size cfg r' w2 = Returned v w2) /\
  power_of_two v /\
  (asks_platform cfg = true ->
   reported_page_size r <= v /\
   (0 < reported_page_size r -> v = reported_page_size r) /\
   (reported_page_size r <= 0 -> v = 4096)) /\
  (asks_platform cfg = false -> v = 4096).
Proof.
  intros Hs Hrep H.
  assert (Hw : static_valid w) by (unfold static_valid; lia).
  split; [exact (page_size_repeats cfg r w v w1 Hw H)|].
  rewrite page_size_eq in H. apply returned_inj in H as [<- _].
  assert (H4096 : power_of_two 4096) by (exists 12%nat; reflexivity).
  assert (Hcast : cast_int (reported_page_size r) = reported_page_size r).
  { apply cast_int_id. unfold plausible_report, INT_MIN, INT_MAX in *.
    destruct Hrep as [Hr|[[k Hk] Hr]]; [lia|].
    pose proof (Z.pow_pos_nonneg 2 (Z.of_nat k) ltac:(lia) ltac:(lia)) as Hpos.
    rewrite <- Hk in Hpos. lia. }
  unfold page_value, queried, asks_platform, B_PAGE_SIZE. rewrite Hs, Hcast.
  cbn [Z.eqb].
  assert (Hreported :
            power_of_two (if reported_page_size r <=? 0 then 4096
                          else reported_page_size r) /\
            reported_page_size r
            <= (if reported_page_size r <=? 0 then 4096 else reported_page_size r) /\
            (0 < reported_page_size r ->
             (if reported_page_size r <=? 0 then 4096 else reported_page_size r)
             = reported_page_size r) /\
            (reported_page_size r <= 0 ->
             (if reported_page_size r <=? 0 then 4096 else reported_page_size r)
             = 4096)).
  { destruct (reported_page_size r <=? 0) eqn:Hle;
      [apply Z.leb_le in Hle | apply Z.leb_gt in Hle].
    - repeat split; auto; lia.
    - destruct Hrep as [Hr|[Hp _]]; [lia|]. repeat split; auto; lia. }
  destruct Hreported as (Hp & Hrest).
  destruct (TORRENT_BUILD_SIMULATOR cfg); cbn [negb andb].
  { split; [exact H4096|]. split; [discriminate | reflexivity]. }
  destruct (TORRENT_WINDOWS cfg); cbn [orb].
  { split; [exact Hp|]. split; [intros _; exact Hrest | discriminate]. }
  destruct (TORRENT_BEOS cfg); cbn [negb].
  { split; [exact H4096|]. split; [discriminate | reflexivity]. }
  split; [exact Hp|]. split; [intros _; exact Hrest | discriminate].
Qed.

(** A 16 KiB platform. *)
Lemma page_size_stable_witness :
  s initial_world = 0 /\
  plausible_report (reported_page_size (answers 16384 0)) /\
  page_size posix_build (answers 16384 0) initial_world
  = Returned 16384 (emit [sysconf_SC_PAGESIZE] (paged 16384)) /\
  (forall cs w2,
      run posix_build cs (emit [sysconf_SC_PAGESIZE] (paged 16384)) = Returned tt w2 ->
      forall r', page_size posix_build r' w2 = Returned 16384 w2) /\
  power_of_two 16384 /\
  (asks_platform posix_build = true ->
   reported_page_size (answers 16384 0) <= 16384 /\
   (0 < reported_page_size (answers 16384 0) ->
    16384 = reported_page_size (answers 16384 0)) /\
   (reported_page_size (answers 16384 0) <= 0 -> 16384 = 4096)) /\
  (asks_platform posix_build = false -> 16384 = 4096).
Proof.
  assert (Hrep : plausible_report (reported_page_size (answers 16384 0))).
  { right. split; [exists 14%nat; reflexivity | vm_compute; discriminate]. }
  split; [reflexivity|]. split; [exact Hrep|]. split; [vm_compute; reflexivity|].
  apply (page_size_stable posix_build (answers 16384 0) initial_world);
    [reflexivity | exact Hrep | vm_compute; reflexivity].
Defined.

(** ** malloc: the specification's claims *)

(** C7.  [malloc] asserts the caller's contract on entry, and nothing else:
    it stops at an assertion exactly when the request is not greater than 0,
    or not below 0x30000000, or below what [page_size()] returns; the
    assertion that fails is the first violated one, and the call does not
    return. *)
Theorem malloc_asserts_contract cfg r bytes w page w0 :
  static_valid w ->
  page_size cfg r w = Returned page w0 ->
  ((exists e, malloc cfg r bytes w = AssertionFailed e) <->
   ~ (0 < bytes /\ bytes < 0x30000000 /\ page <= bytes)) /\
  (bytes <= 0 -> malloc cfg r bytes w = AssertionFailed "bytes > 0") /\
  (0 < bytes -> 0x30000000 <= bytes ->
   malloc cfg r bytes w = AssertionFailed "bytes < 0x30000000") /\
  (0 < bytes -> bytes < 0x30000000 -> bytes < page ->
   malloc cfg r bytes w = AssertionFailed "int(bytes) >= page_size()").
Proof.
  intros Hw Hpage. rewrite page_size_eq in Hpage. inversion Hpage; subst page w0.
  set (page := page_value cfg r w).
  rewrite malloc_eq by exact Hw. fold page.
  destruct (0 <? bytes) eqn:H1; cbn [negb];
    [apply Z.ltb_lt in H1 | apply Z.ltb_ge in H1].
  2:{ split; [|split; [reflexivity|split; intros; lia]].
      split; [lia | eauto]. }
  destruct (bytes <? 0x30000000) eqn:H2; cbn [negb];
    [apply Z.ltb_lt in H2 | apply Z.ltb_ge in H2].
  2:{ split; [|split; [lia|split; [reflexivity|intros; lia]]].
      split; [lia | eauto]. }
  rewrite cast_int_id by (unfold INT_MIN, INT_MAX; lia).
  destruct (page <=? bytes) eqn:H3; cbn [negb];
    [apply Z.leb_le in H3 | apply Z.leb_gt in H3].
  2:{ split; [|split; [lia|split; [lia|reflexivity]]].
      split; [lia | eauto]. }
  split; [|split; [lia|split; lia]].
  split; [|intros Hn; exfalso; apply Hn; lia].
  intros [e He]. exfalso. cbv zeta in He.
  destruct (TORRENT_DEBUG_BUFFERS cfg).
  - destruct (in_int _); [|discriminate].
    destruct (alloc_result cfg r) as [raw|]; [|discriminate].
    destruct (raw =? 0); discriminate.
  - destruct (alloc_result cfg r); discriminate.
Qed.

(** A request of 100 bytes where the page has 4096. *)
Lemma malloc_asserts_contract_witness :
  static_valid initial_world /\
  page_size posix_build (answers 4096 0x10000) initial_world
  = Returned 4096 (emit [sysconf_SC_PAGESIZE] (paged 4096)) /\
  malloc posix_build (answers 4096 0x10000) 100 initial_world
  = AssertionFailed "int(bytes) >= page_size()".
Proof.
  assert (Hw : static_valid initial_world) by (unfold static_valid; simpl; lia).
  assert (Hp : page_size posix_build (answers 4096 0x10000) initial_world
               = Returned 4096 (emit [sysconf_SC_PAGESIZE] (paged 4096)))
    by (vm_compute; reflexivity).
  split; [exact Hw|]. split; [exact Hp|].
  apply (malloc_asserts_contract posix_build (answers 4096 0x10000) 100
           initial_world _ _ Hw Hp); lia.
Defined.



(** ** free(nullptr) *)

(** C9.  [free] of a null block returns at once, in every build: the world
    is left as it was (no call to the platform, no header written, the
    static untouched) and no assertion is evaluated. *)
Theorem free_null_is_noop cfg r w : free cfg r 0 w = Returned tt w.
Proof. unfold free. cbn [Z.eqb]. reflexivity. Qed.

(** ** Diagnostic builds: the life of a block *)

(** A diagnostic [malloc] that returns a block, taken apart. *)
Lemma malloc_debug_block cfg r bytes w block w1 :
  TORRENT_DEBUG_BUFFERS cfg = true ->
  static_valid w ->
  malloc cfg r bytes w = Returned block w1 ->
  block <> 0 ->
  let page := page_value cfg r w in
  let n := (bytes + (page - 1)) ÷ page + 2 in
  0 < page /\ page <= bytes /\ bytes < 0x30000000 /\ 3 <= n /\ n * page <= INT_MAX /\
  alloc_result cfg r = Some (block - page) /\
  block - page <> 0 /\
  w1 = guarded r page n bytes (block - page)
         (acquired (Some (block - page))
            (emit [alloc_request cfg page (n * page)] (page_world cfg r w))).
Proof.
  intros Hd Hw H Hb page n.
  pose proof (page_value_pos cfg r w Hw) as Hp. fold page in Hp.
  rewrite malloc_eq in H by exact Hw. cbv zeta in H. fold page in H.
  destruct (0 <? bytes) eqn:H1; cbn [negb] in H; [|discriminate].
  destruct (bytes <? 0x30000000) eqn:H2; cbn [negb] in H; [|discriminate].
  apply Z.ltb_lt in H1, H2.
  rewrite cast_int_id in H by (unfold INT_MIN, INT_MAX; lia).
  destruct (page <=? bytes) eqn:H3; cbn [negb] in H; [|discriminate].
  apply Z.leb_le in H3. rewrite Hd in H. fold n in H.
  destruct (in_int (n * page)) eqn:Hn; [|discriminate].
  apply in_int_true in Hn.
  destruct (num_pages_in_int bytes page Hp H3 H2) as (_ & _ & _ & _ & H5).
  fold n in H5.
  remember (alloc_result cfg r) as o eqn:Ho in H |- *.
  destruct o as [raw|]; [|apply returned_inj in H as [<- _]; lia].
  destruct (raw =? 0) eqn:Hz; [apply returned_inj in H as [<- _]; lia|].
  apply Z.eqb_neq in Hz. apply returned_inj in H as [<- <-].
  replace (raw + page - page) with raw by lia.
  repeat split; try assumption; lia.
Qed.

Lemma guarded_live r page n bytes raw w :
  s w = page -> raw ∈ allocated w ->
  live page bytes (raw + page) (guarded r page n bytes raw w).
Proof.
  intros Hs Ha. unfold live, guarded. cbn [emit put s heap allocated].
  replace (raw + page - page) with raw by lia.
  split; [exact Hs|]. split; [exact Ha|].
  exists (backtrace r). apply lookup_insert_eq.
Qed.

(** The block a diagnostic [malloc] returned is live. *)
Lemma malloc_debug_live cfg r bytes w block w1 :
  TORRENT_DEBUG_BUFFERS cfg = true ->
  static_valid w ->
  malloc cfg r bytes w = Returned block w1 ->
  block <> 0 ->
  live (page_value cfg r w) bytes block w1.
Proof.
  intros Hd Hw Hm Hb.
  destruct (malloc_debug_block _ _ _ _ _ _ Hd Hw Hm Hb)
    as (Hp & _ & _ & _ & _ & _ & Hraw & ->).
  set (page := page_value cfg r w) in *.
  replace block with (block - page + page) at 1 by lia.
  apply guarded_live.
  - rewrite s_acquired. cbn [emit s]. apply s_page_world.
  - rewrite allocated_acquired by exact Hraw. set_solver.
Qed.

Lemma exec_keeps_live cfg c r page bytes block w w' :
  TORRENT_DEBUG_BUFFERS cfg = true ->
  0 < page ->
  live page bytes block w ->
  spares block page (c, r) ->
  exec cfg c r w = Returned tt w' ->
  live page bytes block w'.
Proof.
  intros Hd Hp (Hs & Ha & st & Hh) Hsp H.
  assert (Hw : static_valid w) by (unfold static_valid; lia).
  assert (Hv : page_value cfg r w = page) by (rewrite page_value_cached; lia).
  assert (Hpw : page_world cfg r w = w) by (apply page_world_cached; lia).
  unfold live. destruct c as [|req|b|b]; cbn [exec] in H; cbn [spares fst snd] in Hsp.
  - minv H. apply returned_inj in H as [_ <-]. rewrite Hpw. eauto.
  - apply bind_inv in H as (a & w1 & Hm & H). apply returned_inj in H as [_ <-].
    destruct (malloc_frame _ _ _ _ _ _ Hw Hm) as (Hs' & Hheap & Hmono).
    rewrite Hv in Hs', Hheap. split; [exact Hs'|]. split; [auto|]. exists st.
    destruct Hheap as [-> | (h' & Hres & Hne & _ & ->)]; [exact Hh|].
    rewrite lookup_insert_ne; [exact Hh|].
    rewrite (alloc_result_ptr _ _ _ Hres) by lia. exact Hsp.
  - destruct (free_frame _ _ _ _ _ H) as (Hs' & Hheap & Hkeep).
    rewrite Hv in Hs', Hheap, Hkeep. rewrite Hd in Hkeep.
    split; [lia|]. split; [apply Hkeep; [exact Ha | lia]|]. exists st.
    destruct Hheap as [-> | (h' & ->)]; [exact Hh|].
    rewrite lookup_insert_ne; [exact Hh | lia].
  - apply bind_inv in H as (u & w1 & Hm & H). apply returned_inj in H as [_ <-].
    apply in_use_frame in Hm. subst w1. rewrite Hpw. eauto.
Qed.

Lemma run_keeps_live cfg page bytes block cs : forall w w',
  TORRENT_DEBUG_BUFFERS cfg = true ->
  0 < page ->
  live page bytes block w ->
  Forall (spares block page) cs ->
  run cfg cs w = Returned tt w' ->
  live page bytes block w'.
Proof.
  induction cs as [|[c r] cs IH]; intros w w' Hd Hp Hl Hsp H; cbn [run] in H.
  - apply returned_inj in H as [_ <-]. exact Hl.
  - apply bind_inv in H as ([] & w1 & Hc & H).
    inversion Hsp as [|? ? Hsp1 Hsp2]; subst.
    apply (IH w1 w' Hd Hp); [|exact Hsp2|exact H].
    exact (exec_keeps_live _ _ _ _ _ _ _ _ Hd Hp Hl Hsp1 Hc).
Qed.

(** [in_use] on a live block: true, and the world is the same. *)
Lemma in_use_live cfg r page bytes block w :
  0 < page -> live page bytes block w ->
  in_use cfg r block w = Returned true w.
Proof.
  intros Hp (Hs & Ha & st & Hh).
  rewrite (in_use_eq cfg r block w {| size := bytes; magic := 0x1337; stack := st |})
    by (rewrite page_value_cached by lia; rewrite Hs; assumption).
  rewrite page_world_cached by lia. reflexivity.
Qed.

(** [free] on a live block returns and leaves the tag cleared. *)
Lemma free_live_block cfg r page bytes block w :
  TORRENT_DEBUG_BUFFERS cfg = true ->
  block <> 0 -> 0 < page -> page <= bytes -> bytes < 0x30000000 ->
  live page bytes block w ->
  exists st,
    free cfg r block w
    = Returned tt (released cfg r page ((bytes + (page - 1)) ÷ page + 2)
                     {| size := bytes; magic := 0x1337; stack := st |} block w).
Proof.
  intros Hd Hb Hp Hle Hlt (Hs & Ha & st & Hh). exists st.
  assert (Hv : page_value cfg r w = page) by (rewrite page_value_cached; lia).
  assert (Hpw : page_world cfg r w = w) by (apply page_world_cached; lia).
  rewrite <- Hpw at 2.
  apply (free_live cfg r block w {| size := bytes; magic := 0x1337; stack := st |} page);
    auto.
Qed.

(** What [free] leaves behind: the header it wrote last, and the raw
    allocation released where the release takes place. *)
Lemma released_header cfg r page n h block w :
  s (released cfg r page n h block w) = s w /\
  heap (released cfg r page n h block w) !! (block - page)
  = Some {| size := size h; magic := 0; stack := backtrace r |} /\
  trace (released cfg r page n h block w)
  = trace w ++ [mprotect (block - page) page PROT_READ_WRITE;
                mprotect (block + (n - 2) * page) page PROT_READ_WRITE;
                print_backtrace (block - page) sizeof_stack]
            ++ release_calls cfg r (block - page) /\
  (block - page ∈ allocated (released cfg r page n h block w) <->
   block - page ∈ allocated w /\ release_takes_place cfg r = false).
Proof.
  unfold released. cbv zeta.
  destruct (release_takes_place cfg r);
    cbn [relinquished emit put s heap trace allocated];
    (split; [reflexivity|]); (split; [apply lookup_insert_eq|]);
    (split; [reflexivity|]).
  - split; [set_solver | intros [_ E]; discriminate].
  - tauto.
Qed.

(** A diagnostic [free] of a block whose header page is not allocated reads
    released memory. *)
Lemma free_released cfg r block w :
  TORRENT_DEBUG_BUFFERS cfg = true -> block <> 0 ->
  block - page_value cfg r w ∉ allocated w ->
  free cfg r block w = Undefined.
Proof.
  intros Hd Hb Ha. unfold free. apply Z.eqb_neq in Hb. rewrite Hb, Hd.
  unfold debug_release. mrun. apply bind_load_released.
  cbn [emit allocated]. rewrite allocated_page_world. exact Ha.
Qed.

(** C3, as the code has it.  In a diagnostic build, after a [malloc] that
    returned the block and any calls that leave the block alone, the first
    [free] finds the tag 0x1337, clears it to 0 and returns.  Where the
    release primitive has taken the memory back, the header page is released
    with it, and a second [free] reads released memory: its behaviour is
    undefined, and the assertion is not what stops it.  Only where nothing
    was released ([area_for] found no area) does the second [free] read the
    cleared tag and stop at the assertion. *)
Theorem double_free_reads_released_header cfg r bytes w block w1 cs w2 r1 r2 :
  TORRENT_DEBUG_BUFFERS cfg = true ->
  static_valid w ->
  malloc cfg r bytes w = Returned block w1 ->
  block <> 0 ->
  Forall (spares block (s w1)) cs ->
  run cfg cs w1 = Returned tt w2 ->
  exists h2 w3 h3,
    heap w2 !! (block - s w1) = Some h2 /\ magic h2 = 0x1337 /\
    free cfg r1 block w2 = Returned tt w3 /\
    heap w3 !! (block - s w1) = Some h3 /\ magic h3 = 0 /\
    (release_takes_place cfg r1 = true ->
     (block - s w1 ∉ allocated w3) /\ free cfg r2 block w3 = Undefined) /\
    (release_takes_place cfg r1 = false ->
     free cfg r2 block w3 = AssertionFailed "h->magic == 0x1337").
Proof.
  intros Hd Hw Hm Hb Hsp Hrun.
  destruct (malloc_debug_block _ _ _ _ _ _ Hd Hw Hm Hb)
    as (Hp & Hle & Hlt & H3 & Hn & _ & _ & _).
  pose proof (malloc_debug_live _ _ _ _ _ _ Hd Hw Hm Hb) as Hl1.
  set (page := page_value cfg r w) in *.
  set (n := (bytes + (page - 1)) ÷ page + 2) in *.
  assert (Hs1 : s w1 = page) by apply Hl1.
  rewrite Hs1 in Hsp |- *.
  pose proof (run_keeps_live _ _ _ _ _ _ _ Hd Hp Hl1 Hsp Hrun) as Hl2.
  destruct (free_live_block cfg r1 page bytes block w2 Hd Hb Hp Hle Hlt Hl2)
    as [st Hf].
  destruct Hl2 as (Hs2 & Ha2 & st2 & Hh2).
  fold n in Hf.
  set (w3 := released cfg r1 page n
               {| size := bytes; magic := 0x1337; stack := st |} block w2) in *.
  destruct (released_header cfg r1 page n
              {| size := bytes; magic := 0x1337; stack := st |} block w2)
    as (Hs3 & Hh3 & _ & Ha3). fold w3 in Hs3, Hh3, Ha3. cbn [size] in Hh3.
  assert (Hv3 : page_value cfg r2 w3 = page) by (rewrite page_value_cached; lia).
  exists {| size := bytes; magic := 0x1337; stack := st2 |}, w3,
         {| size := bytes; magic := 0; stack := backtrace r1 |}.
  split; [exact Hh2|]. split; [reflexivity|]. split; [exact Hf|].
  split; [exact Hh3|]. split; [reflexivity|]. split.
  - intros Hrel.
    assert (Hgone : block - page ∉ allocated w3).
    { intros Hin. apply Ha3 in Hin as [_ E]. congruence. }
    split; [exact Hgone|].
    apply free_released; [exact Hd | exact Hb | rewrite Hv3; exact Hgone].
  - intros Hrel.
    apply (free_not_live cfg r2 block w3
             {| size := bytes; magic := 0; stack := backtrace r1 |} page n);
      auto; cbn [size magic]; try lia.
    apply Ha3. auto.
Qed.

Lemma double_free_reads_released_header_witness :
  static_valid initial_world /\
  malloc posix_debug (answers 4096 0x10000) 8192 initial_world
  = Returned 0x11000 scenario_w1 /\
  run posix_debug scenario_calls scenario_w1 = Returned tt scenario_w2 /\
  exists h2 w3 h3,
    heap scenario_w2 !! (0x11000 - s scenario_w1) = Some h2 /\ magic h2 = 0x1337 /\
    free posix_debug (answers 4096 0) 0x11000 scenario_w2 = Returned tt w3 /\
    heap w3 !! (0x11000 - s scenario_w1) = Some h3 /\ magic h3 = 0 /\
    (release_takes_place posix_debug (answers 4096 0) = true ->
     (0x11000 - s scenario_w1 ∉ allocated w3) /\
     free posix_debug (answers 4096 0) 0x11000 w3 = Undefined) /\
    (release_takes_place posix_debug (answers 4096 0) = false ->
     free posix_debug (answers 4096 0) 0x11000 w3
     = AssertionFailed "h->magic == 0x1337").
Proof.
  split; [unfold static_valid; simpl; lia|]. split; [vm_compute; reflexivity|].
  split; [vm_compute; reflexivity|].
  apply (double_free_reads_released_header posix_debug (answers 4096 0x10000) 8192
           initial_world 0x11000 scenario_w1 scenario_calls scenario_w2).
  - reflexivity.
  - unfold static_valid; simpl; lia.
  - vm_compute; reflexivity.
  - lia.
  - unfold scenario_calls;
      (constructor; [|constructor; [|constructor; [|constructor]]]);
      vm_compute; try exact I; lia.
  - vm_compute; reflexivity.
Defined.

(** C3, as stated, fails: on a diagnostic POSIX build a block of 1 MiB is
    allocated and freed; the second [free] reads the header page [::free]
    has taken back, and does not end in the assertion. *)
Lemma double_free_is_not_asserted :
  exists w1 w2,
    malloc posix_debug (answers 4096 0x10000) 1048576 initial_world
    = Returned 0x11000 w1 /\
    free posix_debug (answers 4096 0) 0x11000 w1 = Returned tt w2 /\
    free posix_debug (answers 4096 0) 0x11000 w2 = Undefined /\
    free posix_debug (answers 4096 0) 0x11000 w2
    <> AssertionFailed "h->magic == 0x1337".
Proof.
  eexists (guarded (answers 4096 0x10000) 4096 258 1048576 0x10000
             (acquired (Some 0x10000)
                (emit [sysconf_SC_PAGESIZE; posix_memalign 4096 1056768]
                   (paged 4096)))).
  eexists (released posix_debug (answers 4096 0) 4096 258
             {| size := 1048576; magic := 0x1337; stack := "malloc" |} 0x11000
             (guarded (answers 4096 0x10000) 4096 258 1048576 0x10000
                (acquired (Some 0x10000)
                   (emit [sysconf_SC_PAGESIZE; posix_memalign 4096 1056768]
                      (paged 4096))))).
  split; [vm_compute; reflexivity|]. split; [vm_compute; reflexivity|].
  assert (E : free posix_debug (answers 4096 0) 0x11000
                (released posix_debug (answers 4096 0) 4096 258
                   {| size := 1048576; magic := 0x1337; stack := "malloc" |} 0x11000
                   (guarded (answers 4096 0x10000) 4096 258 1048576 0x10000
                      (acquired (Some 0x10000)
                         (emit [sysconf_SC_PAGESIZE; posix_memalign 4096 1056768]
                            (paged 4096))))) = Undefined)
    by (vm_compute; reflexivity).
  split; [exact E|]. rewrite E. discriminate.
Qed.

(** C4, as the code has it.  In a diagnostic build, [in_use] of a block
    [malloc] returned is true at every point up to the matching [free],
    whatever calls that leave the block alone are made in between, and the
    world after [in_use] is the world before it.  Once that [free] has
    returned, the header page is released where the release primitive has
    taken the memory back, and [in_use] reads released memory: its behaviour
    is undefined.  Only where nothing was released ([area_for] found no
    area) does it read the cleared tag and return false. *)
Theorem in_use_tracks_life cfg r bytes w block w1 cs w2 rf :
  TORRENT_DEBUG_BUFFERS cfg = true ->
  static_valid w ->
  malloc cfg r bytes w = Returned block w1 ->
  block <> 0 ->
  Forall (spares block (s w1)) cs ->
  run cfg cs w1 = Returned tt w2 ->
  (forall r', in_use cfg r' block w1 = Returned true w1) /\
  (forall r', in_use cfg r' block w2 = Returned true w2) /\
  exists w3,
    free cfg rf block w2 = Returned tt w3 /\
    (release_takes_place cfg rf = true ->
     forall r', in_use cfg r' block w3 = Undefined) /\
    (release_takes_place cfg rf = false ->
     forall r', in_use cfg r' block w3 = Returned false w3).
Proof.
  intros Hd Hw Hm Hb Hsp Hrun.
  destruct (malloc_debug_block _ _ _ _ _ _ Hd Hw Hm Hb)
    as (Hp & Hle & Hlt & H3 & Hn & _ & _ & _).
  pose proof (malloc_debug_live _ _ _ _ _ _ Hd Hw Hm Hb) as Hl1.
  set (page := page_value cfg r w) in *.
  set (n := (bytes + (page - 1)) ÷ page + 2) in *.
  assert (Hs1 : s w1 = page) by apply Hl1.
  rewrite Hs1 in Hsp.
  pose proof (run_keeps_live _ _ _ _ _ _ _ Hd Hp Hl1 Hsp Hrun) as Hl2.
  split; [intros r'; exact (in_use_live cfg r' page bytes block w1 Hp Hl1)|].
  split; [intros r'; exact (in_use_live cfg r' page bytes block w2 Hp Hl2)|].
  destruct (free_live_block cfg rf page bytes block w2 Hd Hb Hp Hle Hlt Hl2)
    as [st Hf].
  fold n in Hf. eexists. split; [exact Hf|].
  destruct (released_header cfg rf page n
              {| size := bytes; magic := 0x1337; stack := st |} block w2)
    as (Hs3 & Hh3 & _ & Ha3).
  destruct Hl2 as (Hs2 & Ha2 & _).
  split; intros Hrel r'.
  - apply in_use_released. rewrite page_value_cached by lia.
    rewrite Hs3, Hs2. intros Hin. apply Ha3 in Hin as [_ E]. congruence.
  - rewrite (in_use_eq cfg r' block _ _)
      by (rewrite page_value_cached by lia; rewrite Hs3, Hs2;
          first [apply Ha3; auto | exact Hh3]).
    rewrite page_world_cached by lia. reflexivity.
Qed.

Lemma in_use_tracks_life_witness :
  static_valid initial_world /\
  malloc posix_debug (answers 4096 0x10000) 8192 initial_world
  = Returned 0x11000 scenario_w1 /\
  run posix_debug scenario_calls scenario_w1 = Returned tt scenario_w2 /\
  (forall r', in_use posix_debug r' 0x11000 scenario_w1 = Returned true scenario_w1) /\
  (forall r', in_use posix_debug r' 0x11000 scenario_w2 = Returned true scenario_w2) /\
  exists w3,
    free posix_debug (answers 4096 0) 0x11000 scenario_w2 = Returned tt w3 /\
    (release_takes_place posix_debug (answers 4096 0) = true ->
     forall r', in_use posix_debug r' 0x11000 w3 = Undefined) /\
    (release_takes_place posix_debug (answers 4096 0) = false ->
     forall r', in_use posix_debug r' 0x11000 w3 = Returned false w3).
Proof.
  split; [unfold static_valid; simpl; lia|]. split; [vm_compute; reflexivity|].
  split; [vm_compute; reflexivity|].
  apply (in_use_tracks_life posix_debug (answers 4096 0x10000) 8192 initial_world
           0x11000 scenario_w1 scenario_calls scenario_w2).
  - reflexivity.
  - unfold static_valid; simpl; lia.
  - vm_compute; reflexivity.
  - lia.
  - unfold scenario_calls;
      (constructor; [|constructor; [|constructor; [|constructor]]]);
      vm_compute; try exact I; lia.
  - vm_compute; reflexivity.
Defined.

(** C4, as stated, fails: on a diagnostic POSIX build a block of 1 MiB is
    allocated and freed; [in_use] then reads the header page [::free] has
    taken back, and does not return false. *)
Lemma in_use_after_free_is_undefined :
  exists w1 w2,
    malloc posix_debug (answers 4096 0x10000) 1048576 initial_world
    = Returned 0x11000 w1 /\
    free posix_debug (answers 4096 0) 0x11000 w1 = Returned tt w2 /\
    in_use posix_debug (answers 4096 0) 0x11000 w2 = Undefined /\
    in_use posix_debug (answers 4096 0) 0x11000 w2 <> Returned false w2.
Proof.
  eexists (guarded (answers 4096 0x10000) 4096 258 1048576 0x10000
             (acquired (Some 0x10000)
                (emit [sysconf_SC_PAGESIZE; posix_memalign 4096 1056768]
                   (paged 4096)))).
  eexists (released posix_debug (answers 4096 0) 4096 258
             {| size := 1048576; magic := 0x1337; stack := "malloc" |} 0x11000
             (guarded (answers 4096 0x10000) 4096 258 1048576 0x10000
                (acquired (Some 0x10000)
                   (emit [sysconf_SC_PAGESIZE; posix_memalign 4096 1056768]
                      (paged 4096))))).
  split; [vm_compute; reflexivity|]. split; [vm_compute; reflexivity|].
  assert (E : in_use posix_debug (answers 4096 0) 0x11000
                (released posix_debug (answers 4096 0) 4096 258
                   {| size := 1048576; magic := 0x1337; stack := "malloc" |} 0x11000
                   (guarded (answers 4096 0x10000) 4096 258 1048576 0x10000
                      (acquired (Some 0x10000)
                         (emit [sysconf_SC_PAGESIZE; posix_memalign 4096 1056768]
                            (paged 4096))))) = Undefined)
    by (vm_compute; reflexivity).
  split; [exact E|]. rewrite E. discriminate.
Qed.

(** C10.  In a diagnostic build [free] leaves the size stored in the header
    as [malloc] wrote it: of the header it only clears the tag and overwrites
    the trace.  So the page count [free] computes from the stored size is the
    page count [malloc] computed from the request (two more than the
    ceiling of [bytes / page]), and the last page [free] makes writable
    again is the page [malloc] made read-only.  [c] is the call of the
    allocation primitive, [rest] the calls of the release primitive. *)
Theorem free_recomputes_page_count cfg r bytes w block w1 cs w2 rf :
  TORRENT_DEBUG_BUFFERS cfg = true ->
  static_valid w ->
  malloc cfg r bytes w = Returned block w1 ->
  block <> 0 ->
  Forall (spares block (s w1)) cs ->
  run cfg cs w1 = Returned tt w2 ->
  let page := s w1 in
  exists n guard w0 c h2 w3 rest,
    page_size cfg r w = Returned page w0 /\
    request_num_pages page bytes w0 = Returned n w0 /\
    is_ceil_div bytes page (n - 2) /\
    guard = block - page + (n - 1) * page /\
    trace w1 = trace w0
               ++ [c;
                   print_backtrace (block - page) sizeof_stack;
                   mprotect (block - page) page PROT_READ;
                   mprotect guard page PROT_READ] /\
    heap w2 !! (block - page) = Some h2 /\ size h2 = bytes /\
    magic h2 = 0x1337 /\
    free cfg rf block w2 = Returned tt w3 /\
    heap w3 !! (block - page)
    = Some {| size := size h2; magic := 0; stack := backtrace rf |} /\
    header_num_pages page (size h2) w2 = Returned n w2 /\
    trace w3 = trace w2
               ++ [mprotect (block - page) page PROT_READ_WRITE;
                   mprotect guard page PROT_READ_WRITE;
                   print_backtrace (block - page) sizeof_stack]
               ++ rest.
Proof.
  intros Hd Hw Hm Hb Hsp Hrun page0.
  destruct (malloc_debug_block _ _ _ _ _ _ Hd Hw Hm Hb)
    as (Hp & Hle & Hlt & H3 & Hn & _ & _ & Hw1).
  pose proof (malloc_debug_live _ _ _ _ _ _ Hd Hw Hm Hb) as Hl1.
  set (page := page_value cfg r w) in *.
  set (n := (bytes + (page - 1)) ÷ page + 2) in *.
  assert (Hs1 : s w1 = page) by apply Hl1.
  subst page0. rewrite Hs1 in Hsp |- *.
  pose proof (run_keeps_live _ _ _ _ _ _ _ Hd Hp Hl1 Hsp Hrun) as Hl2.
  destruct (free_live_block cfg rf page bytes block w2 Hd Hb Hp Hle Hlt Hl2)
    as [st Hf].
  fold n in Hf.
  destruct (released_header cfg rf page n
              {| size := bytes; magic := 0x1337; stack := st |} block w2)
    as (_ & Hh3 & Ht3 & _).
  destruct Hl2 as (Hs2 & _ & st2 & Hh2).
  exists n, (block - page + (n - 1) * page), (page_world cfg r w),
         (alloc_request cfg page (n * page)),
         {| size := bytes; magic := 0x1337; stack := st2 |}.
  eexists. exists (release_calls cfg rf (block - page)).
  split; [apply page_size_eq|].
  split; [apply request_num_pages_eq; assumption|].
  split.
  { replace (n - 2) with ((bytes + (page - 1)) ÷ page) by (unfold n; lia).
    apply quot_is_ceil; lia. }
  split; [reflexivity|].
  split.
  { rewrite Hw1. unfold guarded. cbn [emit put trace].
    rewrite trace_acquired. cbn [emit trace].
    rewrite <- app_assoc. reflexivity. }
  split; [exact Hh2|]. split; [reflexivity|]. split; [reflexivity|].
  split; [exact Hf|].
  split; [exact Hh3|].
  split; [apply header_num_pages_eq; assumption|].
  rewrite Ht3.
  replace (block + (n - 2) * page) with (block - page + (n - 1) * page) by lia.
  reflexivity.
Qed.

(** ** What the allocation primitive is asked for *)

(** On every branch but create_area the primitive is asked for the size
    [malloc] computed, and for the page size as alignment where the
    primitive takes one. *)
Lemma alloc_request_faithful cfg page bytes :
  uses_create_area cfg = false ->
  requested_bytes (alloc_request cfg page bytes) = Some bytes /\
  (requested_alignment (alloc_request cfg page bytes) = Some page \/
   alloc_request cfg page bytes = valloc bytes).
Proof.
  unfold uses_create_area, alloc_request.
  destruct (TORRENT_USE_POSIX_MEMALIGN cfg); [auto|].
  destruct (TORRENT_USE_MEMALIGN cfg); [auto|].
  destruct (TORRENT_WINDOWS cfg); [auto|].
  destruct (TORRENT_BEOS cfg); [discriminate | auto].
Qed.

(** On the create_area branch the size asked for is below one page, hence
    below every size [malloc] accepts: line 125 masks with
    [page_size() - 1] where rounding up to a page needs the complement. *)
Lemma create_area_request_too_small cfg page bytes :
  uses_create_area cfg = true ->
  0 < page -> page <= bytes ->
  exists b, requested_bytes (alloc_request cfg page bytes) = Some b /\ b < page.
Proof.
  unfold uses_create_area, alloc_request. intros Hc Hp Hb.
  destruct (TORRENT_USE_POSIX_MEMALIGN cfg); [discriminate|].
  destruct (TORRENT_USE_MEMALIGN cfg); [discriminate|].
  destruct (TORRENT_WINDOWS cfg); [discriminate|].
  destruct (TORRENT_BEOS cfg); [|discriminate].
  eexists. split; [reflexivity|].
  pose proof (land_bounds (bytes + page - 1) (page - 1)). lia.
Qed.

(** A diagnostic [malloc] that gets past its assertions, on a build that
    does not allocate with create_area: the primitive is asked for
    [(ceil(bytes / page) + 2) * page] bytes. *)
Lemma malloc_debug_reserves cfg r bytes w a w' :
  TORRENT_DEBUG_BUFFERS cfg = true ->
  uses_create_area cfg = false ->
  static_valid w ->
  malloc cfg r bytes w = Returned a w' ->
  let page := page_value cfg r w in
  exists n c rest,
    is_ceil_div bytes page n /\
    trace w' = trace (page_world cfg r w) ++ c :: rest /\
    requested_bytes c = Some ((n + 2) * page).
Proof.
  intros Hd Hc Hw H page.
  pose proof (page_value_pos cfg r w Hw) as Hp. fold page in Hp.
  rewrite malloc_eq in H by exact Hw. cbv zeta in H. fold page in H.
  destruct (0 <? bytes) eqn:H1; cbn [negb] in H; [|discriminate].
  destruct (bytes <? 0x30000000) eqn:H2; cbn [negb] in H; [|discriminate].
  destruct (negb (page <=? cast_int bytes)); [discriminate|].
  apply Z.ltb_lt in H1. rewrite Hd in H.
  destruct (in_int _); [|discriminate].
  exists ((bytes + (page - 1)) ÷ page),
         (alloc_request cfg page (((bytes + (page - 1)) ÷ page + 2) * page)).
  assert (Hq := quot_is_ceil bytes page Hp H1).
  assert (Hr := proj1 (alloc_request_faithful cfg page
                         (((bytes + (page - 1)) ÷ page + 2) * page) Hc)).
  cbv zeta in H. remember (acquired (alloc_result cfg r) _) as w1 eqn:Hw1 in H.
  assert (Ht : trace w1
               = trace (page_world cfg r w)
                 ++ [alloc_request cfg page
                       (((bytes + (page - 1)) ÷ page + 2) * page)])
    by (rewrite Hw1, trace_acquired; reflexivity).
  destruct (alloc_result cfg r) as [raw|];
    [destruct (raw =? 0)|]; apply returned_inj in H as [_ <-]; eexists;
    (split; [exact Hq|]); (split; [|exact Hr]);
    unfold guarded; cbn [emit put trace]; rewrite Ht, <- ?app_assoc;
    cbn [app]; try reflexivity.
  all: rewrite app_nil_r; reflexivity.
Qed.

(** The scenario of the specification on a POSIX build: [malloc(4096)] with
    4096-byte pages reserves 3 pages. *)
Example posix_debug_reserves_three_pages :
  exists w', malloc posix_debug (answers 4096 0x10000) 4096 initial_world
             = Returned 0x11000 w' /\
             trace w' = [sysconf_SC_PAGESIZE; posix_memalign 4096 (3 * 4096);
                         print_backtrace 0x10000 sizeof_stack;
                         mprotect 0x10000 4096 PROT_READ;
                         mprotect 0x12000 4096 PROT_READ].
Proof.
  eexists (guarded (answers 4096 0x10000) 4096 3 4096 0x10000
             (acquired (Some 0x10000)
                (emit [sysconf_SC_PAGESIZE; posix_memalign 4096 12288]
                   (paged 4096)))).
  split; vm_compute; reflexivity.
Qed.

(** C2, at the input where the code departs from it.  On a diagnostic BeOS
    build with 4096-byte pages, [malloc(4096)] computes 3 pages and asks
    [create_area] for 4095 bytes, not for the 3 * 4096 it computed. *)
Theorem beos_debug_reserves_4095 :
  malloc beos_debug (answers 4096 0x10000) 4096 initial_world
  = Returned 0x11000
      (guarded (answers 4096 0x10000) 4096 3 4096 0x10000
         (acquired (Some 0x10000) (emit [create_area 4095] (paged 4096)))) /\
  request_num_pages 4096 4096 initial_world = Returned 3 initial_world /\
  4095 <> 3 * 4096.
Proof.
  split; [vm_compute; reflexivity|]. split; [vm_compute; reflexivity | lia].
Qed.

(** C8, at the input where the code departs from it.  On a production BeOS
    build with 4096-byte pages, [malloc(4096)] asks [create_area] for 4095
    bytes, not for the 4096 requested. *)
Theorem beos_requests_4095 :
  malloc beos_build (answers 4096 0x10000) 4096 initial_world
  = Returned 0x10000
      (acquired (Some 0x10000) (emit [create_area 4095] (paged 4096))) /\
  requested_bytes (alloc_request beos_build 4096 4096) = Some 4095.
Proof.
  split; vm_compute; reflexivity.
Qed.

Lemma free_recomputes_page_count_witness :
  static_valid initial_world /\
  malloc posix_debug (answers 4096 0x10000) 8192 initial_world
  = Returned 0x11000 scenario_w1 /\
  run posix_debug scenario_calls scenario_w1 = Returned tt scenario_w2 /\
  let page := s scenario_w1 in
  exists n guard w0 c h2 w3 rest,
    page_size posix_debug (answers 4096 0x10000) initial_world = Returned page w0 /\
    request_num_pages page 8192 w0 = Returned n w0 /\
    is_ceil_div 8192 page (n - 2) /\
    guard = 0x11000 - page + (n - 1) * page /\
    trace scenario_w1
    = trace w0
      ++ [c;
          print_backtrace (0x11000 - page) sizeof_stack;
          mprotect (0x11000 - page) page PROT_READ;
          mprotect guard page PROT_READ] /\
    heap scenario_w2 !! (0x11000 - page) = Some h2 /\ size h2 = 8192 /\
    magic h2 = 0x1337 /\
    free posix_debug (answers 4096 0) 0x11000 scenario_w2 = Returned tt w3 /\
    heap w3 !! (0x11000 - page)
    = Some {| size := size h2; magic := 0; stack := backtrace (answers 4096 0) |} /\
    header_num_pages page (size h2) scenario_w2 = Returned n scenario_w2 /\
    trace w3 = trace scenario_w2
               ++ [mprotect (0x11000 - page) page PROT_READ_WRITE;
                   mprotect guard page PROT_READ_WRITE;
                   print_backtrace (0x11000 - page) sizeof_stack]
               ++ rest.
Proof.
  split; [unfold static_valid; simpl; lia|]. split; [vm_compute; reflexivity|].
  split; [vm_compute; reflexivity|].
  apply (free_recomputes_page_count posix_debug (answers 4096 0x10000) 8192
           initial_world 0x11000 scenario_w1 scenario_calls scenario_w2).
  - reflexivity.
  - unfold static_valid; simpl; lia.
  - vm_compute; reflexivity.
  - lia.
  - unfold scenario_calls;
      (constructor; [|constructor; [|constructor; [|constructor]]]);
      vm_compute; try exact I; lia.
  - vm_compute; reflexivity.
Defined.

(** * Further properties of the allocator *)

(** ** malloc: overflow, failure, and what the primitive is asked for *)

(** A [malloc] that returns has met its three assertions and called the
    allocation primitive once.  Either the primitive failed and [malloc]
    returns [nullptr] in the world the call left, or it produced a pointer,
    now allocated, which a production build returns as it is and a
    diagnostic build returns one page further, behind the header. *)
Lemma malloc_returned cfg r bytes w a w' :
  static_valid w ->
  malloc cfg r bytes w = Returned a w' ->
  let page := page_value cfg r w in
  let n := (bytes + (page - 1)) ÷ page + 2 in
  let b := if TORRENT_DEBUG_BUFFERS cfg then n * page else bytes in
  0 < bytes /\ bytes < 0x30000000 /\ page <= bytes /\
  exists w1,
    w1 = acquired (alloc_result cfg r)
           (emit [alloc_request cfg page b] (page_world cfg r w)) /\
    ((a = 0 /\ w' = w1 /\
      match alloc_result cfg r with Some raw => raw = 0 | None => True end) \/
     (exists raw,
        alloc_result cfg r = Some raw /\ raw <> 0 /\ raw ∈ allocated w1 /\
        a = (if TORRENT_DEBUG_BUFFERS cfg then raw + page else raw) /\
        w' = (if TORRENT_DEBUG_BUFFERS cfg
              then guarded r page n bytes raw w1 else w1))).
Proof.
  intros Hw H page n b.
  pose proof (page_value_pos cfg r w Hw) as Hp. fold page in Hp.
  rewrite malloc_eq in H by exact Hw. cbv zeta in H. fold page in H.
  destruct (0 <? bytes) eqn:H1; cbn [negb] in H; [|discriminate].
  destruct (bytes <? 0x30000000) eqn:H2; cbn [negb] in H; [|discriminate].
  apply Z.ltb_lt in H1, H2.
  rewrite cast_int_id in H by (unfold INT_MIN, INT_MAX; lia).
  destruct (page <=? bytes) eqn:H3; cbn [negb] in H; [|discriminate].
  apply Z.leb_le in H3.
  split; [exact H1|]. split; [exact H2|]. split; [exact H3|].
  subst b. fold n in H.
  assert (Hin : forall raw x, raw <> 0 ->
            raw ∈ allocated (acquired (Some raw) x))
    by (intros raw x Hz; rewrite allocated_acquired by exact Hz; set_solver).
  destruct (TORRENT_DEBUG_BUFFERS cfg).
  - destruct (in_int (n * page)); [|discriminate].
    destruct (alloc_result cfg r) as [raw|].
    + destruct (raw =? 0) eqn:Hz;
        [apply Z.eqb_eq in Hz | apply Z.eqb_neq in Hz];
        apply returned_inj in H as [<- <-]; eexists; (split; [reflexivity|]).
      * left. auto.
      * right. exists raw. auto 6.
    + apply returned_inj in H as [<- <-]. eexists. split; [reflexivity|].
      left. auto.
  - destruct (alloc_result cfg r) as [raw|];
      apply returned_inj in H as [<- <-]; eexists; (split; [reflexivity|]).
    + destruct (raw =? 0) eqn:Hz;
        [apply Z.eqb_eq in Hz | apply Z.eqb_neq in Hz].
      * left. auto.
      * right. exists raw. auto 6.
    + left. auto.
Qed.

(** X1.  Line 112 multiplies two [int]s.  A [malloc] whose request meets the
    three assertions is undefined exactly when the build is diagnostic and
    [num_pages * page] exceeds [INT_MAX]; with a page size of at most
    0x1AAAAAAA bytes this cannot happen, and [malloc] returns. *)
Theorem malloc_overflows_only_on_huge_pages cfg r bytes w page w0 :
  static_valid w ->
  page_size cfg r w = Returned page w0 ->
  0 < bytes -> bytes < 0x30000000 -> page <= bytes ->
  (malloc cfg r bytes w = Undefined <->
   TORRENT_DEBUG_BUFFERS cfg = true /\
   INT_MAX < ((bytes + (page - 1)) ÷ page + 2) * page) /\
  ((TORRENT_DEBUG_BUFFERS cfg = true -> page <= 0x1AAAAAAA) ->
   exists a w', malloc cfg r bytes w = Returned a w').
Proof.
  intros Hw Hpage H1 H2 H3.
  rewrite page_size_eq in Hpage. inversion Hpage; subst page w0.
  set (page := page_value cfg r w) in *.
  pose proof (page_value_pos cfg r w Hw) as Hp. fold page in Hp.
  rewrite malloc_eq by exact Hw. cbv zeta. fold page.
  apply Z.ltb_lt in H1 as H1b. apply Z.ltb_lt in H2 as H2b. rewrite H1b, H2b.
  rewrite cast_int_id by (unfold INT_MIN, INT_MAX; lia).
  apply Z.leb_le in H3 as H3b. rewrite H3b. cbn [negb].
  destruct (num_pages_in_int bytes page Hp H3 H2) as (_ & _ & _ & _ & H5).
  pose proof (quot_is_ceil bytes page Hp H1) as Hc. unfold is_ceil_div in Hc.
  set (n := (bytes + (page - 1)) ÷ page + 2) in *.
  destruct (TORRENT_DEBUG_BUFFERS cfg).
  - destruct (in_int (n * page)) eqn:Hn.
    + apply in_int_true in Hn. split.
      * split; [|intros [_ Hgt]; lia].
        destruct (alloc_result cfg r) as [raw|]; [destruct (raw =? 0)|];
          discriminate.
      * intros _. destruct (alloc_result cfg r) as [raw|];
          [destruct (raw =? 0)|]; eauto.
    + assert (Hgt : INT_MAX < n * page).
      { destruct (Z.le_gt_cases (n * page) INT_MAX) as [Hle|Hgt]; [|lia].
        exfalso. assert (in_int (n * page) = true); [|congruence].
        apply in_int_true. unfold INT_MIN, INT_MAX in *. nia. }
      split; [split; auto|].
      intros Hsmall. specialize (Hsmall eq_refl).
      exfalso. unfold INT_MAX in Hgt. subst n. nia.
  - split.
    + split; [|intros [Hd _]; discriminate].
      destruct (alloc_result cfg r); discriminate.
    + intros _. destruct (alloc_result cfg r); eauto.
Qed.

Lemma malloc_overflows_only_on_huge_pages_witness :
  exists a w', malloc posix_debug (answers 4096 0x10000) 8192 initial_world
               = Returned a w'.
Proof.
  apply (malloc_overflows_only_on_huge_pages posix_debug (answers 4096 0x10000)
           8192 initial_world 4096
           (emit [sysconf_SC_PAGESIZE] (paged 4096))).
  - unfold static_valid. simpl. lia.
  - vm_compute. reflexivity.
  - lia.
  - lia.
  - lia.
  - intros _. lia.
Defined.

(** The primitive failed, as [malloc] tests it on each branch. *)
Lemma alloc_failed_iff cfg r :
  match alloc_result cfg r with None => True | Some raw => raw = 0 end <->
  alloc_ptr r = 0 \/
  (TORRENT_USE_POSIX_MEMALIGN cfg = true /\ alloc_status r <> 0) \/
  (uses_create_area cfg = true /\ alloc_status r < B_OK).
Proof.
  unfold alloc_result, uses_create_area.
  destruct (TORRENT_USE_POSIX_MEMALIGN cfg); cbn [negb andb].
  { destruct (alloc_status r =? 0) eqn:Hs; cbn [negb];
      [apply Z.eqb_eq in Hs | apply Z.eqb_neq in Hs].
    - split; [auto|]. intros [E|[[_ E]|[E _]]]; [exact E|tauto|discriminate].
    - split; auto. }
  destruct (TORRENT_USE_MEMALIGN cfg); cbn [negb andb].
  { split; [auto|]. intros [E|[[E _]|[E _]]]; [exact E|discriminate..]. }
  destruct (TORRENT_WINDOWS cfg); cbn [negb andb].
  { split; [auto|]. intros [E|[[E _]|[E _]]]; [exact E|discriminate..]. }
  destruct (TORRENT_BEOS cfg).
  - destruct (alloc_status r <? B_OK) eqn:Hs;
      [apply Z.ltb_lt in Hs | apply Z.ltb_ge in Hs].
    + split; auto.
    + split; [auto|]. intros [E|[[E _]|[_ E]]]; [exact E|discriminate|lia].
  - split; [auto|]. intros [E|[[E _]|[E _]]]; [exact E|discriminate..].
Qed.

Lemma alloc_request_is_allocation cfg page bytes :
  requested_bytes (alloc_request cfg page bytes) <> None.
Proof.
  unfold alloc_request.
  destruct (TORRENT_USE_POSIX_MEMALIGN cfg); [discriminate|].
  destruct (TORRENT_USE_MEMALIGN cfg); [discriminate|].
  destruct (TORRENT_WINDOWS cfg); [discriminate|].
  destruct (TORRENT_BEOS cfg); discriminate.
Qed.

(** X2.  [malloc] returns [nullptr] exactly when the allocation primitive
    failed: it produced a null pointer, or [posix_memalign] returned a
    non-zero status, or [create_area] returned an id below [B_OK].  A
    [malloc] that returns [nullptr] has called [page_size] and the
    primitive, and nothing else: no header is written and no page is
    protected. *)
Theorem malloc_null_iff_primitive_failed cfg r bytes w a w' :
  static_valid w ->
  0 <= alloc_ptr r ->
  malloc cfg r bytes w = Returned a w' ->
  (a = 0 <->
   alloc_ptr r = 0 \/
   (TORRENT_USE_POSIX_MEMALIGN cfg = true /\ alloc_status r <> 0) \/
   (uses_create_area cfg = true /\ alloc_status r < B_OK)) /\
  (a = 0 ->
   heap w' = heap w /\
   exists page w0 c,
     page_size cfg r w = Returned page w0 /\
     trace w' = trace w0 ++ [c] /\
     requested_bytes c <> None).
Proof.
  intros Hw Hptr H.
  pose proof (page_value_pos cfg r w Hw) as Hp.
  pose proof (alloc_failed_iff cfg r) as Hf.
  pose proof (alloc_result_ptr cfg r) as Hres.
  destruct (malloc_returned _ _ _ _ _ _ Hw H) as (_ & _ & _ & w1 & Hw1 & Hm).
  set (page := page_value cfg r w) in *.
  rewrite <- Hf. clear Hf.
  assert (Hnull : heap w1 = heap w /\
                  exists page0 w0 c,
                    page_size cfg r w = Returned page0 w0 /\
                    trace w1 = trace w0 ++ [c] /\
                    requested_bytes c <> None).
  { rewrite Hw1, heap_acquired, trace_acquired. cbn [emit heap trace].
    split; [apply heap_page_world|].
    eexists page, (page_world cfg r w), _.
    split; [apply page_size_eq|]. split; [reflexivity|].
    apply alloc_request_is_allocation. }
  destruct Hm as [(-> & -> & Hz) | (raw & Ho & Hz & _ & -> & _)].
  - split; [|intros _; exact Hnull]. split; [intros _; exact Hz | reflexivity].
  - rewrite Ho. specialize (Hres raw Ho Hz).
    destruct (TORRENT_DEBUG_BUFFERS cfg);
      (split; [split; intros; lia | intros; lia]).
Qed.

Lemma malloc_null_iff_primitive_failed_witness :
  malloc posix_debug
    {| reported_page_size := 4096; alloc_status := 12; alloc_ptr := 0x10000;
       backtrace := "malloc"; area := 1 |} 8192 initial_world
  = Returned 0 (emit [sysconf_SC_PAGESIZE; posix_memalign 4096 16384]
                  (paged 4096)) /\
  (0 = 0 ->
   heap (emit [sysconf_SC_PAGESIZE; posix_memalign 4096 16384]
           (paged 4096)) = heap initial_world /\
   exists page w0 c,
     page_size posix_debug
       {| reported_page_size := 4096; alloc_status := 12; alloc_ptr := 0x10000;
          backtrace := "malloc"; area := 1 |} initial_world = Returned page w0 /\
     trace (emit [sysconf_SC_PAGESIZE; posix_memalign 4096 16384]
              (paged 4096)) = trace w0 ++ [c] /\
     requested_bytes c <> None).
Proof.
  split; [vm_compute; reflexivity|].
  apply (malloc_null_iff_primitive_failed posix_debug
           {| reported_page_size := 4096; alloc_status := 12; alloc_ptr := 0x10000;
              backtrace := "malloc"; area := 1 |} 8192 initial_world 0).
  - unfold static_valid. simpl. lia.
  - simpl. lia.
  - vm_compute. reflexivity.
Defined.

(** X3.  A production [malloc] that returns has done two things: it has
    called [page_size], and it has called the allocation primitive of the
    build, once.  It writes no header.  On every branch but create_area the
    primitive is asked for exactly [bytes] bytes, with [page_size()] as the
    alignment where the primitive takes one ([valloc] does not). *)
Theorem production_malloc_is_one_call cfg r bytes w a w' :
  TORRENT_DEBUG_BUFFERS cfg = false ->
  static_valid w ->
  malloc cfg r bytes w = Returned a w' ->
  exists page w0 c,
    page_size cfg r w = Returned page w0 /\
    trace w' = trace w0 ++ [c] /\
    heap w' = heap w /\
    requested_bytes c <> None /\
    (uses_create_area cfg = false ->
     requested_bytes c = Some bytes /\
     (requested_alignment c = Some page \/ c = valloc bytes)).
Proof.
  intros Hd Hw H.
  pose proof (malloc_returned _ _ _ _ _ _ Hw H) as Hr. cbv zeta in Hr.
  rewrite Hd in Hr. destruct Hr as (_ & _ & _ & w1 & Hw1 & Hm).
  set (page := page_value cfg r w) in *.
  exists page, (page_world cfg r w), (alloc_request cfg page bytes).
  split; [apply page_size_eq|].
  assert (Hw' : w' = w1)
    by (destruct Hm as [(_ & -> & _) | (raw & _ & _ & _ & _ & ->)]; reflexivity).
  rewrite Hw', Hw1, trace_acquired, heap_acquired. cbn [emit trace heap].
  split; [reflexivity|]. split; [apply heap_page_world|].
  split; [apply alloc_request_is_allocation|].
  apply alloc_request_faithful.
Qed.

Lemma production_malloc_is_one_call_witness :
  exists page w0 c,
    page_size posix_build (answers 4096 0x10000) initial_world = Returned page w0 /\
    trace (acquired (Some 0x10000)
             (emit [sysconf_SC_PAGESIZE; posix_memalign 4096 8192]
                (paged 4096))) = trace w0 ++ [c] /\
    heap (acquired (Some 0x10000)
            (emit [sysconf_SC_PAGESIZE; posix_memalign 4096 8192]
               (paged 4096))) = heap initial_world /\
    requested_bytes c <> None /\
    (uses_create_area posix_build = false ->
     requested_bytes c = Some 8192 /\
     (requested_alignment c = Some page \/ c = valloc 8192)).
Proof.
  apply (production_malloc_is_one_call posix_build (answers 4096 0x10000) 8192
           initial_world 0x10000).
  - reflexivity.
  - unfold static_valid. simpl. lia.
  - vm_compute. reflexivity.
Defined.

(** X4.  A diagnostic [malloc] that returns, on a build that does not
    allocate with create_area, has asked the primitive once, for
    [(n + 2) * page] bytes where [n] is the ceiling of [bytes / page], and
    for [page] as the alignment where the primitive takes one; every later
    call of the platform is a [print_backtrace] or an [mprotect]. *)
Theorem diagnostic_malloc_reserves_two_more_pages cfg r bytes w a w' :
  TORRENT_DEBUG_BUFFERS cfg = true ->
  uses_create_area cfg = false ->
  static_valid w ->
  malloc cfg r bytes w = Returned a w' ->
  exists page w0 n c rest,
    page_size cfg r w = Returned page w0 /\
    is_ceil_div bytes page n /\
    trace w' = trace w0 ++ c :: rest /\
    requested_bytes c = Some ((n + 2) * page) /\
    (requested_alignment c = Some page \/ c = valloc ((n + 2) * page)) /\
    Forall (fun e => is_diagnostic_call e = true) rest.
Proof.
  intros Hd Hc Hw H.
  pose proof (page_value_pos cfg r w Hw) as Hp.
  pose proof (malloc_returned _ _ _ _ _ _ Hw H) as Hr. cbv zeta in Hr.
  rewrite Hd in Hr. destruct Hr as (H1 & _ & _ & w1 & Hw1 & Hm).
  set (page := page_value cfg r w) in *.
  set (n := (bytes + (page - 1)) ÷ page) in *.
  destruct (alloc_request_faithful cfg page ((n + 2) * page) Hc) as [Hb Hal].
  assert (Hq : is_ceil_div bytes page n) by (apply quot_is_ceil; assumption).
  assert (Ht : trace w1 = trace (page_world cfg r w)
                          ++ [alloc_request cfg page ((n + 2) * page)])
    by (rewrite Hw1, trace_acquired; reflexivity).
  exists page, (page_world cfg r w), n, (alloc_request cfg page ((n + 2) * page)).
  destruct Hm as [(_ & -> & _) | (raw & _ & _ & _ & _ & ->)].
  - exists []. split; [apply page_size_eq|]. split; [exact Hq|].
    split; [exact Ht|]. split; [exact Hb|]. split; [exact Hal | constructor].
  - eexists. split; [apply page_size_eq|]. split; [exact Hq|].
    split; [unfold guarded; cbn [emit put trace]; rewrite Ht, <- app_assoc;
            reflexivity|].
    split; [exact Hb|]. split; [exact Hal|].
    repeat constructor.
Qed.

Lemma diagnostic_malloc_reserves_two_more_pages_witness :
  exists page w0 n c rest,
    page_size posix_debug (answers 4096 0x10000) initial_world = Returned page w0 /\
    is_ceil_div 8192 page n /\
    trace scenario_w1 = trace w0 ++ c :: rest /\
    requested_bytes c = Some ((n + 2) * page) /\
    (requested_alignment c = Some page \/ c = valloc ((n + 2) * page)) /\
    Forall (fun e => is_diagnostic_call e = true) rest.
Proof.
  apply (diagnostic_malloc_reserves_two_more_pages posix_debug
           (answers 4096 0x10000) 8192 initial_world 0x11000).
  - reflexivity.
  - reflexivity.
  - unfold static_valid. simpl. lia.
  - vm_compute. reflexivity.
Defined.

(** X5.  On a build that allocates with create_area, in a process that has
    not yet called [page_size], the size [malloc] passes to [create_area] is
    a remainder modulo the page size of 4096 and never the size it computed:
    [(bytes - 1) mod 4096] in a production build, and 4095 whatever the
    request in a diagnostic build. *)
Theorem create_area_is_asked_for_a_remainder cfg r bytes w a w' :
  uses_create_area cfg = true ->
  s w = 0 ->
  malloc cfg r bytes w = Returned a w' ->
  exists rest,
    trace w' = trace w
               ++ create_area (if TORRENT_DEBUG_BUFFERS cfg then 4095
                               else (bytes - 1) mod 4096) :: rest /\
    (if TORRENT_DEBUG_BUFFERS cfg then 4095 else (bytes - 1) mod 4096) < bytes.
Proof.
  intros Hc Hs H.
  assert (Hw : static_valid w) by (unfold static_valid; lia).
  pose proof (malloc_returned _ _ _ _ _ _ Hw H) as Hr. cbv zeta in Hr.
  assert (Hpage : page_value cfg r w = 4096 /\ trace (page_world cfg r w) = trace w).
  { unfold page_world, page_value, queried, query_calls, B_PAGE_SIZE.
    rewrite Hs. cbn [Z.eqb s trace]. revert Hc. unfold uses_create_area.
    destruct (TORRENT_BUILD_SIMULATOR cfg); [rewrite app_nil_r; auto|].
    destruct (TORRENT_WINDOWS cfg);
      [rewrite !andb_false_r; cbn [andb]; discriminate|].
    destruct (TORRENT_BEOS cfg); [rewrite app_nil_r; auto|].
    rewrite !andb_false_r. discriminate. }
  destruct Hpage as [Hv Ht]. rewrite Hv in Hr.
  destruct Hr as (H1 & H2 & H3 & w1 & Hw1 & Hm).
  assert (Hreq : forall b, alloc_request cfg 4096 b = create_area ((b - 1) mod 4096)).
  { intros b. unfold alloc_request. revert Hc. unfold uses_create_area.
    destruct (TORRENT_USE_POSIX_MEMALIGN cfg); [discriminate|].
    destruct (TORRENT_USE_MEMALIGN cfg); [discriminate|].
    destruct (TORRENT_WINDOWS cfg); [discriminate|].
    destruct (TORRENT_BEOS cfg); [|discriminate]. intros _. f_equal.
    change (4096 - 1) with (Z.ones 12). rewrite Z.land_ones by lia.
    replace (b + 4096 - 1) with (b - 1 + 1 * 2 ^ 12) by lia.
    rewrite Z.mod_add by lia. reflexivity. }
  pose proof (Z.mod_pos_bound (bytes - 1) 4096 ltac:(lia)) as Hmb.
  assert (Ht1 : trace w1
                = trace w ++ [create_area (if TORRENT_DEBUG_BUFFERS cfg then 4095
                                           else (bytes - 1) mod 4096)]).
  { rewrite Hw1, trace_acquired. cbn [emit trace]. rewrite Ht, Hreq.
    destruct (TORRENT_DEBUG_BUFFERS cfg); [|reflexivity].
    replace (((bytes + (4096 - 1)) ÷ 4096 + 2) * 4096 - 1)
      with (4095 + ((bytes + (4096 - 1)) ÷ 4096 + 1) * 4096) by lia.
    rewrite Z.mod_add by lia. reflexivity. }
  assert (Hlt : (if TORRENT_DEBUG_BUFFERS cfg then 4095
                 else (bytes - 1) mod 4096) < bytes)
    by (destruct (TORRENT_DEBUG_BUFFERS cfg); lia).
  destruct Hm as [(_ & -> & _) | (raw & _ & _ & _ & _ & ->)].
  - exists []. split; [exact Ht1 | exact Hlt].
  - destruct (TORRENT_DEBUG_BUFFERS cfg).
    + eexists. unfold guarded. cbn [emit put trace].
      rewrite Ht1, <- app_assoc. split; [reflexivity | exact Hlt].
    + exists []. split; [exact Ht1 | exact Hlt].
Qed.

Lemma create_area_is_asked_for_a_remainder_witness :
  exists rest,
    trace (acquired (Some 0x10000) (emit [create_area 4095] (paged 4096)))
    = trace initial_world
      ++ create_area (if TORRENT_DEBUG_BUFFERS beos_build then 4095
                      else (4096 - 1) mod 4096) :: rest /\
    (if TORRENT_DEBUG_BUFFERS beos_build then 4095 else (4096 - 1) mod 4096) < 4096.
Proof.
  apply (create_area_is_asked_for_a_remainder beos_build (answers 4096 0x10000)
           4096 initial_world 0x10000).
  - reflexivity.
  - reflexivity.
  - vm_compute. reflexivity.
Defined.

(** ** free: what is checked, and what is released *)

(** A [malloc] that returns a block got a non-null pointer from the
    primitive: the block itself in a production build, the page before the
    block in a diagnostic build; and that pointer is allocated. *)
Lemma malloc_block_origin cfg r bytes w block w1 :
  static_valid w ->
  malloc cfg r bytes w = Returned block w1 ->
  block <> 0 ->
  alloc_ptr r = (if TORRENT_DEBUG_BUFFERS cfg then block - s w1 else block) /\
  0 < s w1 /\
  alloc_ptr r ∈ allocated w1.
Proof.
  intros Hw H Hb.
  pose proof (page_value_pos cfg r w Hw) as Hp.
  destruct (malloc_frame _ _ _ _ _ _ Hw H) as [Hs _]. rewrite Hs.
  pose proof (alloc_result_ptr cfg r) as Hres.
  destruct (malloc_returned _ _ _ _ _ _ Hw H) as (_ & _ & _ & w0 & _ & Hm).
  destruct Hm as [(-> & _) | (raw & Ho & Hz & Ha & Hblock & Hw1)]; [lia|].
  rewrite <- (Hres raw Ho Hz) in *.
  split; [destruct (TORRENT_DEBUG_BUFFERS cfg); lia|]. split; [exact Hp|].
  rewrite Hw1. destruct (TORRENT_DEBUG_BUFFERS cfg); [|exact Ha].
  unfold guarded. cbn [emit put allocated]. exact Ha.
Qed.

(** A production [free] is the release primitive and nothing more: it does
    not stop at an assertion, whatever it is given. *)
Lemma production_free_never_asserts cfg r block w e :
  TORRENT_DEBUG_BUFFERS cfg = false ->
  free cfg r block w <> AssertionFailed e.
Proof.
  intros Hd. destruct (Z.eq_dec block 0) as [->|Hb].
  { unfold free. cbn [Z.eqb]. discriminate. }
  rewrite free_plain by assumption.
  destruct (decide (block ∈ allocated w)) as [Ha|Ha].
  - rewrite platform_free_returns by auto. discriminate.
  - destruct (release_needs_allocation cfg) eqn:Hn.
    + rewrite platform_free_undefined by assumption. discriminate.
    + rewrite platform_free_returns by auto. discriminate.
Qed.

(** X6.  A production [free] checks nothing of its own.  After a production
    [malloc] that returned a block, [free] of the block returns after
    handing the pointer to the release primitive, without reading or writing
    a header and without calling [page_size]; where the primitive takes the
    memory back the block is no longer allocated.  Nothing guards a second
    [free] of the same pointer: [free] never stops at an assertion, and on a
    build that releases with [::free] or [_aligned_free] the second call
    hands the primitive a pointer that is not allocated, which is undefined
    behaviour. *)
Theorem production_free_is_unchecked cfg r bytes w block w1 r1 r2 :
  TORRENT_DEBUG_BUFFERS cfg = false ->
  static_valid w ->
  malloc cfg r bytes w = Returned block w1 ->
  block <> 0 ->
  exists w2,
    free cfg r1 block w1 = Returned tt w2 /\
    trace w2 = trace w1 ++ release_calls cfg r1 block /\
    heap w2 = heap w1 /\ s w2 = s w1 /\
    (release_takes_place cfg r1 = true -> block ∉ allocated w2) /\
    (release_needs_allocation cfg = true ->
     free cfg r2 block w2 = Undefined) /\
    (forall p w0 e, free cfg r2 p w0 <> AssertionFailed e).
Proof.
  intros Hd Hw Hm Hb.
  destruct (malloc_block_origin _ _ _ _ _ _ Hw Hm Hb) as (Hptr & _ & Ha).
  rewrite Hd in Hptr. rewrite Hptr in Ha.
  exists (after_release cfg r1 block w1).
  split; [rewrite free_plain by assumption; apply platform_free_returns; auto|].
  split; [apply trace_after_release|].
  split; [apply heap_after_release|].
  split; [apply s_after_release|].
  assert (Hgone : release_takes_place cfg r1 = true ->
                  block ∉ allocated (after_release cfg r1 block w1)).
  { intros Hrel. rewrite allocated_after_release, Hrel. set_solver. }
  split; [exact Hgone|]. split.
  - intros Hn. rewrite free_plain by assumption.
    apply platform_free_undefined; [exact Hn|]. apply Hgone.
    unfold release_takes_place. unfold release_needs_allocation in Hn.
    rewrite Hn. reflexivity.
  - intros p w0 e. apply production_free_never_asserts. exact Hd.
Qed.

Lemma production_free_is_unchecked_witness :
  exists w2,
    free posix_build (answers 4096 0) 0x10000
      (acquired (Some 0x10000)
         (emit [sysconf_SC_PAGESIZE; posix_memalign 4096 8192] (paged 4096)))
    = Returned tt w2 /\
    trace w2 = trace (acquired (Some 0x10000)
                        (emit [sysconf_SC_PAGESIZE; posix_memalign 4096 8192]
                           (paged 4096)))
               ++ release_calls posix_build (answers 4096 0) 0x10000 /\
    heap w2 = heap (acquired (Some 0x10000)
                      (emit [sysconf_SC_PAGESIZE; posix_memalign 4096 8192]
                         (paged 4096))) /\
    s w2 = s (acquired (Some 0x10000)
                (emit [sysconf_SC_PAGESIZE; posix_memalign 4096 8192]
                   (paged 4096))) /\
    (release_takes_place posix_build (answers 4096 0) = true ->
     0x10000 ∉ allocated w2) /\
    (release_needs_allocation posix_build = true ->
     free posix_build (answers 4096 0) 0x10000 w2 = Undefined) /\
    (forall p w0 e, free posix_build (answers 4096 0) p w0 <> AssertionFailed e).
Proof.
  apply (production_free_is_unchecked posix_build (answers 4096 0x10000) 8192
           initial_world 0x10000).
  - reflexivity.
  - unfold static_valid. simpl. lia.
  - vm_compute. reflexivity.
  - lia.
Defined.

(** In a production build, calls that leave a block alone leave it
    allocated. *)
Lemma exec_keeps_allocated cfg c r block page w w' :
  TORRENT_DEBUG_BUFFERS cfg = false ->
  static_valid w ->
  block ∈ allocated w ->
  spares block page (c, r) ->
  exec cfg c r w = Returned tt w' ->
  static_valid w' /\ block ∈ allocated w'.
Proof.
  intros Hd Hw Ha Hsp H.
  split; [exact (exec_static_valid _ _ _ _ _ Hw H)|].
  destruct c as [|req|b|b]; cbn [exec] in H; cbn [spares fst snd] in Hsp.
  - minv H. apply returned_inj in H as [_ <-].
    rewrite allocated_page_world. exact Ha.
  - apply bind_inv in H as (a & w1 & Hm & H). apply returned_inj in H as [_ <-].
    apply (malloc_frame _ _ _ _ _ _ Hw Hm). exact Ha.
  - destruct (free_frame _ _ _ _ _ H) as (_ & _ & Hkeep).
    rewrite Hd in Hkeep. apply Hkeep; [exact Ha | congruence].
  - apply bind_inv in H as (u & w1 & Hm & H). apply returned_inj in H as [_ <-].
    apply in_use_frame in Hm. subst w1. rewrite allocated_page_world. exact Ha.
Qed.

Lemma run_keeps_allocated cfg block page cs : forall w w',
  TORRENT_DEBUG_BUFFERS cfg = false ->
  static_valid w ->
  block ∈ allocated w ->
  Forall (spares block page) cs ->
  run cfg cs w = Returned tt w' ->
  block ∈ allocated w'.
Proof.
  induction cs as [|[c r] cs IH]; intros w w' Hd Hw Ha Hsp H; cbn [run] in H.
  - apply returned_inj in H as [_ <-]. exact Ha.
  - apply bind_inv in H as ([] & w1 & Hc & H).
    inversion Hsp as [|? ? Hsp1 Hsp2]; subst.
    destruct (exec_keeps_allocated _ _ _ _ _ _ _ Hd Hw Ha Hsp1 Hc) as [Hw1 Ha1].
    exact (IH w1 w' Hd Hw1 Ha1 Hsp2 H).
Qed.

(** X7.  What [free] releases is what the primitive allocated.  After a
    [malloc] that returned a block, and calls that leave the block alone,
    [free] of the block returns, and the last calls it makes are those of the
    release primitive on the very pointer the allocation primitive produced:
    the block in a production build, the header page in front of it in a
    diagnostic build. *)
Theorem free_releases_what_was_allocated cfg r bytes w block w1 cs w2 rf :
  static_valid w ->
  malloc cfg r bytes w = Returned block w1 ->
  block <> 0 ->
  Forall (spares block (s w1)) cs ->
  run cfg cs w1 = Returned tt w2 ->
  exists w3 before,
    free cfg rf block w2 = Returned tt w3 /\
    trace w3 = trace w2 ++ before ++ release_calls cfg rf (alloc_ptr r) /\
    Forall (fun e => is_diagnostic_call e = true) before.
Proof.
  intros Hw Hm Hb Hsp Hrun.
  destruct (malloc_block_origin _ _ _ _ _ _ Hw Hm Hb) as (Hptr & Hpos & Ha).
  destruct (TORRENT_DEBUG_BUFFERS cfg) eqn:Hd.
  - destruct (malloc_debug_block _ _ _ _ _ _ Hd Hw Hm Hb)
      as (Hp & Hle & Hlt & H3 & Hn & _ & _ & _).
    pose proof (malloc_debug_live _ _ _ _ _ _ Hd Hw Hm Hb) as Hl1.
    set (page := page_value cfg r w) in *.
    set (n := (bytes + (page - 1)) ÷ page + 2) in *.
    assert (Hs1 : s w1 = page) by apply Hl1.
    rewrite Hs1 in Hsp, Hptr.
    pose proof (run_keeps_live _ _ _ _ _ _ _ Hd Hp Hl1 Hsp Hrun) as Hl2.
    destruct (free_live_block cfg rf page bytes block w2 Hd Hb Hp Hle Hlt Hl2)
      as [st Hf].
    eexists. eexists. split; [exact Hf|].
    destruct (released_header cfg rf page ((bytes + (page - 1)) ÷ page + 2)
                {| size := bytes; magic := 0x1337; stack := st |} block w2)
      as (_ & _ & Ht & _).
    rewrite Ht, Hptr. split; [reflexivity|]. repeat constructor.
  - rewrite Hptr in Ha |- *.
    assert (Hw1 : static_valid w1) by (unfold static_valid; lia).
    pose proof (run_keeps_allocated _ _ _ _ _ _ Hd Hw1 Ha Hsp Hrun) as Ha2.
    exists (after_release cfg rf block w2), [].
    split; [rewrite free_plain by assumption; apply platform_free_returns; auto|].
    rewrite trace_after_release. cbn [app]. split; [reflexivity | constructor].
Qed.

Lemma free_releases_what_was_allocated_witness :
  exists w3 before,
    free posix_debug (answers 4096 0) 0x11000 scenario_w2 = Returned tt w3 /\
    trace w3 = trace scenario_w2 ++ before
               ++ release_calls posix_debug (answers 4096 0)
                    (alloc_ptr (answers 4096 0x10000)) /\
    Forall (fun e => is_diagnostic_call e = true) before.
Proof.
  apply (free_releases_what_was_allocated posix_debug (answers 4096 0x10000) 8192
           initial_world 0x11000 scenario_w1 scenario_calls scenario_w2).
  - unfold static_valid. simpl. lia.
  - vm_compute. reflexivity.
  - lia.
  - unfold scenario_calls;
      (constructor; [|constructor; [|constructor; [|constructor]]]);
      vm_compute; try exact I; lia.
  - vm_compute. reflexivity.
Defined.

(** X10.  In a diagnostic build, for a non-null block whose header page is
    allocated and holds a size [malloc] accepts, the tag of the header
    decides what [free] does.  With the tag 0x1337 it returns: it has made
    both pages writable again, captured the trace and called the release
    primitive on the header page, which is no longer allocated where the
    primitive takes the memory back.  With any other tag it stops at the
    assertion, and nothing is released. *)
Theorem diagnostic_free_is_decided_by_the_tag cfg r block w page w0 h :
  TORRENT_DEBUG_BUFFERS cfg = true ->
  block <> 0 ->
  static_valid w ->
  page_size cfg r w = Returned page w0 ->
  block - page ∈ allocated w ->
  heap w !! (block - page) = Some h ->
  page <= size h < 0x30000000 ->
  (magic h = 0x1337 ->
   exists w' guard,
     free cfg r block w = Returned tt w' /\
     block + size h <= guard < block + size h + page /\
     trace w' = trace w0
                ++ [mprotect (block - page) page PROT_READ_WRITE;
                    mprotect guard page PROT_READ_WRITE;
                    print_backtrace (block - page) sizeof_stack]
                ++ release_calls cfg r (block - page) /\
     (release_takes_place cfg r = true -> block - page ∉ allocated w')) /\
  (magic h <> 0x1337 ->
   free cfg r block w = AssertionFailed "h->magic == 0x1337").
Proof.
  intros Hd Hb Hw Hpage Ha Hh Hsize.
  rewrite page_size_eq in Hpage. inversion Hpage; subst page w0.
  set (page := page_value cfg r w) in *.
  pose proof (page_value_pos cfg r w Hw) as Hp. fold page in Hp.
  split.
  - intros Hm.
    pose proof (quot_is_ceil (size h) page Hp ltac:(lia)) as Hc.
    unfold is_ceil_div in Hc.
    set (n := (size h + (page - 1)) ÷ page + 2) in *.
    exists (released cfg r page n h block (page_world cfg r w)),
           (block + (n - 2) * page).
    split; [apply (free_live cfg r block w h page n Hd Hb eq_refl eq_refl Hp
                     Ha Hh Hsize Hm)|].
    split; [subst n; lia|].
    destruct (released_header cfg r page n h block (page_world cfg r w))
      as (_ & _ & Ht & Hal).
    split; [exact Ht|].
    intros Hrel Hin. apply Hal in Hin as [_ E]. congruence.
  - intros Hm.
    apply (free_not_live cfg r block w h page _ Hd Hb eq_refl eq_refl Hp Ha Hh
             Hsize Hm).
Qed.

Lemma diagnostic_free_is_decided_by_the_tag_witness :
  (magic {| size := 8192; magic := 0x1337; stack := "malloc" |} = 0x1337 ->
   exists w' guard,
     free posix_debug (answers 4096 0) 0x11000 scenario_w1 = Returned tt w' /\
     0x11000 + size {| size := 8192; magic := 0x1337; stack := "malloc" |}
     <= guard
     < 0x11000 + size {| size := 8192; magic := 0x1337; stack := "malloc" |}
       + 4096 /\
     trace w' = trace scenario_w1
                ++ [mprotect (0x11000 - 4096) 4096 PROT_READ_WRITE;
                    mprotect guard 4096 PROT_READ_WRITE;
                    print_backtrace (0x11000 - 4096) sizeof_stack]
                ++ release_calls posix_debug (answers 4096 0) (0x11000 - 4096) /\
     (release_takes_place posix_debug (answers 4096 0) = true ->
      0x11000 - 4096 ∉ allocated w')) /\
  (magic {| size := 8192; magic := 0x1337; stack := "malloc" |} <> 0x1337 ->
   free posix_debug (answers 4096 0) 0x11000 scenario_w1
   = AssertionFailed "h->magic == 0x1337").
Proof.
  apply (diagnostic_free_is_decided_by_the_tag posix_debug (answers 4096 0) 0x11000
           scenario_w1 4096 scenario_w1
           {| size := 8192; magic := 0x1337; stack := "malloc" |}).
  - reflexivity.
  - lia.
  - unfold static_valid. simpl. lia.
  - vm_compute. reflexivity.
  - vm_compute. reflexivity.
  - vm_compute. reflexivity.
  - simpl. lia.
Defined.

(** ** The layout of a diagnostic allocation *)

(** X9.  A diagnostic [malloc] that returns a block has issued two calls of
    [mprotect] with [PROT_READ], one page each, at addresses that bracket
    the block; it does not look at what they return.  The first is for the
    page that starts one page before the block.  The second is for the page
    that starts at the first page boundary at or after the end of the
    [bytes] requested (at the end itself when [bytes] is a multiple of the
    page size), so the block lies between the two addresses; and on a build
    that does not allocate with create_area the size asked of the
    allocation primitive ends where the second page ends. *)
Theorem mprotect_calls_bracket_the_block cfg r bytes w block w1 :
  TORRENT_DEBUG_BUFFERS cfg = true ->
  static_valid w ->
  malloc cfg r bytes w = Returned block w1 ->
  block <> 0 ->
  let page := s w1 in
  exists w0 c header guard,
    page_size cfg r w = Returned page w0 /\
    trace w1 = trace w0
               ++ [c; print_backtrace header sizeof_stack;
                   mprotect header page PROT_READ;
                   mprotect guard page PROT_READ] /\
    header + page = block /\
    block + bytes <= guard /\ guard < block + bytes + page /\
    (guard - block) mod page = 0 /\
    (bytes mod page = 0 -> guard = block + bytes) /\
    (uses_create_area cfg = false ->
     requested_bytes c = Some (guard + page - header)).
Proof.
  intros Hd Hw Hm Hb page0.
  destruct (malloc_debug_block _ _ _ _ _ _ Hd Hw Hm Hb)
    as (Hp & Hle & Hlt & H3 & Hn & _ & _ & Hw1).
  set (page := page_value cfg r w) in *.
  assert (Hs1 : s w1 = page)
    by (rewrite Hw1; unfold guarded; cbn [emit put s]; rewrite s_acquired;
        cbn [emit s]; apply s_page_world).
  subst page0. rewrite Hs1.
  pose proof (quot_is_ceil bytes page Hp ltac:(lia)) as Hc.
  unfold is_ceil_div in Hc.
  set (q := (bytes + (page - 1)) ÷ page) in *.
  exists (page_world cfg r w), (alloc_request cfg page ((q + 2) * page)),
         (block - page), (block - page + (q + 2 - 1) * page).
  split; [apply page_size_eq|].
  split.
  { rewrite Hw1. unfold guarded. cbn [emit put trace].
    rewrite trace_acquired. cbn [emit trace].
    rewrite <- app_assoc. reflexivity. }
  split; [lia|]. split; [lia|]. split; [lia|].
  split.
  { replace (block - page + (q + 2 - 1) * page - block) with (q * page) by lia.
    apply Z.mod_mul. lia. }
  split.
  { intros Hmod. apply Z.mod_divide in Hmod; [|lia].
    destruct Hmod as [k Hk]. assert (k = q) by nia. subst k. lia. }
  intros Hca. rewrite (proj1 (alloc_request_faithful cfg page _ Hca)).
  f_equal. lia.
Qed.

Lemma mprotect_calls_bracket_the_block_witness :
  let page := s scenario_w1 in
  exists w0 c header guard,
    page_size posix_debug (answers 4096 0x10000) initial_world = Returned page w0 /\
    trace scenario_w1 = trace w0
               ++ [c; print_backtrace header sizeof_stack;
                   mprotect header page PROT_READ;
                   mprotect guard page PROT_READ] /\
    header + page = 0x11000 /\
    0x11000 + 8192 <= guard /\ guard < 0x11000 + 8192 + page /\
    (guard - 0x11000) mod page = 0 /\
    (8192 mod page = 0 -> guard = 0x11000 + 8192) /\
    (uses_create_area posix_debug = false ->
     requested_bytes c = Some (guard + page - header)).
Proof.
  apply (mprotect_calls_bracket_the_block posix_debug (answers 4096 0x10000) 8192
           initial_world 0x11000 scenario_w1).
  - reflexivity.
  - unfold static_valid. simpl. lia.
  - vm_compute. reflexivity.
  - lia.
Defined.

(** ** The page size is asked for once *)

Lemma queries_app t1 t2 : queries (t1 ++ t2) = (queries t1 + queries t2)%nat.
Proof. unfold queries. rewrite List.filter_app, List.length_app. reflexivity. Qed.

Lemma queries_alloc_request cfg page bytes :
  queries [alloc_request cfg page bytes] = 0%nat.
Proof.
  unfold alloc_request.
  destruct (TORRENT_USE_POSIX_MEMALIGN cfg); [reflexivity|].
  destruct (TORRENT_USE_MEMALIGN cfg); [reflexivity|].
  destruct (TORRENT_WINDOWS cfg); [reflexivity|].
  destruct (TORRENT_BEOS cfg); reflexivity.
Qed.

Lemma queries_release_calls cfg r block : queries (release_calls cfg r block) = 0%nat.
Proof.
  unfold release_calls.
  destruct (TORRENT_WINDOWS cfg); [reflexivity|].
  destruct (TORRENT_BEOS cfg); [|reflexivity].
  destruct (area r <? B_OK); reflexivity.
Qed.

Lemma queries_query_calls cfg : (queries (query_calls cfg) <= 1)%nat.
Proof.
  unfold query_calls.
  destruct (TORRENT_BUILD_SIMULATOR cfg); [cbn; lia|].
  destruct (TORRENT_WINDOWS cfg); [cbn; lia|].
  destruct (TORRENT_BEOS cfg); cbn; lia.
Qed.

Lemma queries_page_world cfg r w :
  queries (trace (page_world cfg r w))
  = if s w =? 0 then (queries (trace w) + queries (query_calls cfg))%nat
    else queries (trace w).
Proof.
  unfold page_world. destruct (s w =? 0); [|reflexivity].
  cbn [trace]. apply queries_app.
Qed.

(** The calls a [malloc] that returns has added to the trace, after those of
    [page_size], are no queries. *)
Lemma malloc_trace cfg r bytes w a w' :
  static_valid w ->
  malloc cfg r bytes w = Returned a w' ->
  exists evs, trace w' = trace (page_world cfg r w) ++ evs /\ queries evs = 0%nat.
Proof.
  intros Hw H.
  destruct (malloc_returned _ _ _ _ _ _ Hw H) as (_ & _ & _ & w1 & Hw1 & Hm).
  assert (Ht : exists c, trace w1 = trace (page_world cfg r w) ++ [c] /\
                         queries [c] = 0%nat).
  { eexists. rewrite Hw1, trace_acquired. cbn [emit trace].
    split; [reflexivity | apply queries_alloc_request]. }
  destruct Ht as (c & Ht & Hq).
  destruct Hm as [(_ & -> & _) | (raw & _ & _ & _ & _ & ->)]; [eauto|].
  destruct (TORRENT_DEBUG_BUFFERS cfg); [|eauto].
  unfold guarded. cbn [emit put trace]. rewrite Ht, <- app_assoc.
  eexists. split; [reflexivity|].
  rewrite (queries_app [c]), Hq. reflexivity.
Qed.

(** The same for [free], which calls [page_size] only in a diagnostic build
    and for a non-null block. *)
Lemma free_trace cfg r block w w' :
  free cfg r block w = Returned tt w' ->
  exists evs,
    queries evs = 0%nat /\
    ((trace w' = trace w ++ evs /\ s w' = s w) \/
     (trace w' = trace (page_world cfg r w) ++ evs /\ s w' = page_value cfg r w)).
Proof.
  unfold free. destruct (block =? 0).
  { intros H. inversion H; subst. exists []. split; [reflexivity|].
    left. rewrite app_nil_r. auto. }
  destruct (TORRENT_DEBUG_BUFFERS cfg).
  - unfold debug_release, header_num_pages, capture_backtrace. intros H.
    minv H. apply platform_free_inv in H as [-> _].
    rewrite s_after_release, trace_after_release.
    cbn [emit put s heap trace]. rewrite s_page_world.
    eexists. split; cycle 1.
    { right. split; [rewrite <- !app_assoc; reflexivity | reflexivity]. }
    rewrite !queries_app, queries_release_calls. reflexivity.
  - intros H. minv H. apply platform_free_inv in H as [-> _].
    rewrite s_after_release, trace_after_release.
    eexists. split; [apply queries_release_calls|].
    left. auto.
Qed.

Lemma exec_trace cfg c r w w' :
  static_valid w ->
  exec cfg c r w = Returned tt w' ->
  exists evs,
    queries evs = 0%nat /\
    ((trace w' = trace w ++ evs /\ s w' = s w) \/
     (trace w' = trace (page_world cfg r w) ++ evs /\ s w' = page_value cfg r w)).
Proof.
  intros Hw H. destruct c as [|bytes|block|block]; cbn [exec] in H.
  - minv H. inversion H; subst. exists []. split; [reflexivity|].
    right. rewrite app_nil_r. split; [reflexivity | apply s_page_world].
  - apply bind_inv in H as (a & w1 & Hm & H). inversion H; subst.
    destruct (malloc_trace _ _ _ _ _ _ Hw Hm) as (evs & Ht & Hq).
    exists evs. split; [exact Hq|]. right. split; [exact Ht|].
    apply (malloc_frame _ _ _ _ _ _ Hw Hm).
  - apply (free_trace _ _ _ _ _ H).
  - apply bind_inv in H as (b & w1 & Hm & H). inversion H; subst.
    apply in_use_frame in Hm. subst. exists []. split; [reflexivity|].
    right. rewrite app_nil_r. split; [reflexivity | apply s_page_world].
Qed.

Lemma exec_asked_once cfg c r w w' :
  asked_once w -> exec cfg c r w = Returned tt w' -> asked_once w'.
Proof.
  intros (Hw & H0 & H1) H.
  pose proof (exec_static_valid _ _ _ _ _ Hw H) as Hw'.
  destruct (exec_trace _ _ _ _ _ Hw H) as (evs & Hq & [[Ht Hs]|[Ht Hs]]).
  - split; [exact Hw'|]. rewrite Ht, queries_app, Hq, Hs, Nat.add_0_r. auto.
  - pose proof (page_value_pos cfg r w Hw) as Hp.
    pose proof (queries_query_calls cfg) as Hc.
    split; [exact Hw'|]. rewrite Ht, queries_app, Hq, Hs, Nat.add_0_r.
    rewrite queries_page_world. split; [lia|].
    destruct (s w =? 0) eqn:Hz; [|exact H1].
    apply Z.eqb_eq in Hz. rewrite (H0 Hz). lia.
Qed.

(** X8.  A process queries the platform for the page size at most once,
    whatever calls of the allocator it makes and in whatever order: the trace
    holds at most one [sysconf(_SC_PAGESIZE)] or [GetSystemInfo], and holds
    none as long as the static is still 0. *)
Theorem page_size_is_queried_at_most_once cfg cs w :
  run cfg cs initial_world = Returned tt w ->
  (queries (trace w) <= 1)%nat /\
  (s w = 0 -> queries (trace w) = 0%nat).
Proof.
  assert (Hgen : forall cs w0 w1,
             asked_once w0 -> run cfg cs w0 = Returned tt w1 -> asked_once w1).
  { clear. induction cs as [|[c r] cs IH]; intros w0 w1 Hi H; cbn [run] in H.
    - inversion H; subst. exact Hi.
    - apply bind_inv in H as ([] & w2 & Hc & H).
      apply (IH w2 w1); [|exact H]. exact (exec_asked_once _ _ _ _ _ Hi Hc). }
  intros H.
  assert (Hi : asked_once initial_world).
  { unfold asked_once, static_valid. cbn. repeat split; lia. }
  destruct (Hgen cs initial_world w Hi H) as (_ & H0 & H1). auto.
Qed.

Lemma page_size_is_queried_at_most_once_witness :
  (queries (trace (world_of (run posix_debug
                               ((call_malloc 8192, answers 4096 0x10000)
                                :: scenario_calls) initial_world))) <= 1)%nat.
Proof.
  apply (page_size_is_queried_at_most_once posix_debug
           ((call_malloc 8192, answers 4096 0x10000) :: scenario_calls)).
  vm_compute. reflexivity.
Defined.
